(** * Rattlescan: a shallow embedding of [rattlescan/cli.py]

    The forensic scanner is a sequence of Python functions that read one file,
    build ordered reports, and optionally rewrite or destroy the file.  The
    embedding keeps that shape:

    - Python values, exceptions and ordered dictionaries are plain data;
    - the filesystem is a finite map from path strings to files, threaded
      through a state-and-exception monad together with the list of system
      calls performed, the captured standard output and a plan of injected
      I/O faults;
    - the third-party libraries (python-magic, hashlib, Pillow, PyPDF2,
      mutagen, libm's [log2]) are records of functions: the program is
      verified for every behaviour of those libraries.

    Strings are byte strings: a non-ASCII character such as the warning sign
    is its UTF-8 encoding, and [str.lower] is the ASCII lower-casing. *)

From Stdlib Require Import ZArith Ascii String Floats Uint63 Lia.
From Stdlib.Strings Require Import Byte.
From stdpp Require Import gmap strings list pretty.

Local Open Scope Z_scope.
Local Open Scope string_scope.
Local Open Scope list_scope.

(** ** Python values *)

Abbreviation bytes := (list Byte.byte).

(** Keys of the report dictionaries: text, or an integer EXIF tag id that
    [TAGS.get(tid, tid)] could not resolve. *)
Inductive pykey : Type :=
| KStr (s : string)
| KInt (n : Z).

#[warnings="-register-all"] Inductive pyval : Type :=
| VNone
| VStr (s : string)
| VInt (n : Z)
| VFloat (x : float)
| VBool (b : bool)
| VBytes (b : bytes)
| VDict (items : list (pykey * pyval))
| VObj (repr : string).

Coercion KStr : string >-> pykey.

Definition pykey_eqb (a b : pykey) : bool :=
  match a, b with
  | KStr s, KStr t => String.eqb s t
  | KInt n, KInt m => Z.eqb n m
  | _, _ => false
  end.

(** An [OrderedDict]: insertion order is display order. *)
Abbreviation report := (list (pykey * pyval)).

(** [d[k] = v]: an existing key keeps its position and takes the new value,
    a new key goes last. *)
Fixpoint dict_set (k : pykey) (v : pyval) (d : report) : report :=
  match d with
  | [] => [(k, v)]
  | (k', v') :: d' =>
      if pykey_eqb k k' then (k, v) :: d' else (k', v') :: dict_set k v d'
  end.

(** [d.update(items)] *)
Definition dict_update (d : report) (items : report) : report :=
  fold_left (fun acc kv => dict_set (fst kv) (snd kv) acc) items d.

Fixpoint dict_get (k : pykey) (d : report) : option pyval :=
  match d with
  | [] => None
  | (k', v) :: d' => if pykey_eqb k k' then Some v else dict_get k d'
  end.

Definition dict_keys (d : report) : list pykey := map fst d.

(** ** Exceptions *)

(** The classes the handlers of [cli.py] tell apart; all of them derive from
    [Exception].  [IOError] is Python 3's alias of [OSError]. *)
Inductive exn_class : Type :=
| ImportError
| IOError
| AttributeError
| ValueError
| OtherError.

Record exn : Type := mkExn { exn_cls : exn_class; exn_str : string }.

Inductive result (A : Type) : Type :=
| Ok (a : A)
| Raise (e : exn).
Arguments Ok {A} a.
Arguments Raise {A} e.

Definition is_IOError (e : exn) : bool :=
  match exn_cls e with IOError => true | _ => false end.

Definition is_ImportError (e : exn) : bool :=
  match exn_cls e with ImportError => true | _ => false end.

(** ** The state-and-exception monad

    [SE S A] is a Python statement block over the mutable state [S]: it ends
    normally with a value or with a raised exception, and the mutations made
    before the exception stay. *)

Definition SE (S A : Type) : Type := S -> result A * S.

Definition se_ret {S A} (a : A) : SE S A := fun s => (Ok a, s).

Definition se_bind {S A B} (c : SE S A) (k : A -> SE S B) : SE S B :=
  fun s =>
    match c s with
    | (Ok a, s') => k a s'
    | (Raise e, s') => (Raise e, s')
    end.

Definition se_raise {S A} (e : exn) : SE S A := fun s => (Raise e, s).

Definition se_get {S} : SE S S := fun s => (Ok s, s).

Definition se_modify {S} (f : S -> S) : SE S unit := fun s => (Ok tt, f s).

(** [try: body / except <matching e>: handler e].  A handler that answers
    [None] does not match and the exception propagates. *)
Definition try_except {S A} (body : SE S A) (handler : exn -> option (SE S A))
  : SE S A :=
  fun s =>
    match body s with
    | (Ok a, s') => (Ok a, s')
    | (Raise e, s') =>
        match handler e with
        | Some h => h s'
        | None => (Raise e, s')
        end
    end.

(** [except Exception as e: ...] *)
Definition except_Exception {S A} (h : exn -> SE S A) : exn -> option (SE S A) :=
  fun e => Some (h e).

(** Lift a computed library answer into the block. *)
Definition se_lift {S A} (r : result A) : SE S A := fun s => (r, s).

#[global] Instance se_mret {S} : MRet (SE S) := fun A a => se_ret a.
#[global] Instance se_mbind {S} : MBind (SE S) := fun A B k c => se_bind c k.

(** ** Text helpers *)

Definition ascii_lower (c : ascii) : ascii :=
  let n := nat_of_ascii c in
  if (65 <=? n)%nat && (n <=? 90)%nat then ascii_of_nat (n + 32) else c.

(** [str.lower()] *)
Fixpoint lower (s : string) : string :=
  match s with
  | EmptyString => EmptyString
  | String c s' => String (ascii_lower c) (lower s')
  end.

(** [s * n] *)
Fixpoint str_repeat (s : string) (n : nat) : string :=
  match n with
  | O => ""
  | S n' => s +:+ str_repeat s n'
  end.

(** [s.lstrip(c)] for a one-character argument *)
Fixpoint lstrip (c : ascii) (s : string) : string :=
  match s with
  | String c' s' => if Ascii.eqb c c' then lstrip c s' else s
  | EmptyString => EmptyString
  end.

(** [x in [ ... ]] over strings *)
Definition str_in (x : string) (l : list string) : bool :=
  existsb (String.eqb x) l.

(** [s.split(sep)] for a one-character separator: the result is never empty. *)
Fixpoint split_on (sep : ascii) (s : string) : list string :=
  match s with
  | EmptyString => [""]
  | String c s' =>
      if Ascii.eqb c sep then "" :: split_on sep s'
      else match split_on sep s' with
           | [] => [String c ""]
           | w :: ws => String c w :: ws
           end
  end.

(** [sep.join(parts)] *)
Fixpoint join (sep : string) (parts : list string) : string :=
  match parts with
  | [] => ""
  | [p] => p
  | p :: ps => p +:+ sep +:+ join sep ps
  end.

(** [s.rfind(".")]: position of the last dot. *)
Fixpoint rfind_dot (s : string) : option nat :=
  match s with
  | EmptyString => None
  | String c s' =>
      match rfind_dot s' with
      | Some i => Some (S i)
      | None => if Ascii.eqb c "." then Some O else None
      end
  end.

(** [s[i:]] and [s[:i]] *)
Fixpoint str_drop (i : nat) (s : string) : string :=
  match i, s with
  | O, _ => s
  | S i', String _ s' => str_drop i' s'
  | S _, EmptyString => EmptyString
  end.

Fixpoint str_take (i : nat) (s : string) : string :=
  match i, s with
  | O, _ => EmptyString
  | S i', String c s' => String c (str_take i' s')
  | S _, EmptyString => EmptyString
  end.

(** ** [pathlib.Path] (POSIX flavour) *)

Module Path.

(** A parsed path: the root ([""], ["/"] or ["//"]) and the components,
    with empty and ["."] components dropped. *)
Record t : Type := mk { root : string; tail : list string }.

Definition keep_part (x : string) : bool :=
  negb (String.eqb x "") && negb (String.eqb x ".").

(** [posixpath.splitroot]: one leading slash, or three and more, give the
    root ["/"]; exactly two give the root ["//"]. *)
Definition splitroot (fp : string) : string * string :=
  match fp with
  | String c1 r1 =>
      if Ascii.eqb c1 "/" then
        match r1 with
        | String c2 r2 =>
            if Ascii.eqb c2 "/" then
              match r2 with
              | String c3 _ => if Ascii.eqb c3 "/" then ("/", r1) else ("//", r2)
              | EmptyString => ("//", r2)
              end
            else ("/", r1)
        | EmptyString => ("/", r1)
        end
      else ("", fp)
  | EmptyString => ("", fp)
  end.

(** [Path(fp)] *)
Definition of_string (fp : string) : t :=
  let '(rt, rel) := splitroot fp in
  mk rt (filter (fun x => keep_part x = true) (split_on "/" rel)).

(** [str(p)] *)
Definition to_string (p : t) : string :=
  let s := root p +:+ join "/" (tail p) in
  if String.eqb s "" then "." else s.

(** [p.name]: the last component, or [""] *)
Definition name (p : t) : string := List.last (tail p) "".

(** [p.suffix] *)
Definition suffix (p : t) : string :=
  let n := name p in
  match rfind_dot n with
  | Some i =>
      if (0 <? i)%nat && (i <? String.length n - 1)%nat then str_drop i n
      else ""
  | None => ""
  end.

(** [p.with_suffix("")]: drops the suffix of the last component; raises
    [ValueError] on an empty name. *)
Definition with_suffix_empty (p : t) : result t :=
  let n := name p in
  if String.eqb n "" then Raise (mkExn ValueError "path has an empty name")
  else
    let old := suffix p in
    let n' := str_take (String.length n - String.length old) n in
    Ok (mk (root p) (removelast (tail p) ++ [n'])).

End Path.

(** ** The machine: files, clock, system calls, standard output *)

Record File : Type := mkFile { f_data : bytes; f_mtime : Z }.

(** The system calls and buffered-file operations the program performs. *)
Inductive syscall : Type :=
| SysGetsize (p : string)
| SysExists (p : string)
| SysOpen (p : string) (mode : string)
| SysRead (p : string)
| SysSeek (p : string) (pos : nat)
| SysWrite (p : string) (data : bytes)
| SysFlush (p : string)
| SysFsync (p : string)
| SysClose (p : string)
| SysRemove (p : string)
| SysReplace (src dst : string)
| SysCopy2 (src dst : string)
| SysUrandom (n : nat).

(** [faults] is the plan of injected I/O failures: every fallible call takes
    the next entry; [None] (or an exhausted plan) lets the call succeed,
    [Some k] makes it raise [IOError], a write having stored only the first
    [k] bytes of its data by then. *)
Record World : Type := mkWorld {
  files : gmap string File;
  now : Z;
  faults : list (option nat);
  calls : list syscall;
  stdout : list string;
  draws : nat
}.

Abbreviation IO := (SE World).

Definition set_files (fs : gmap string File) (w : World) : World :=
  mkWorld fs (now w) (faults w) (calls w) (stdout w) (draws w).

Definition update_files (f : World -> gmap string File) : IO unit :=
  fun w => (Ok tt, set_files (f w) w).

(** [try: body / finally: cleanup] *)
Definition finally {A} (body : IO A) (cleanup : IO unit) : IO A :=
  fun w => match body w with (r, w') => (r, snd (cleanup w')) end.

(** Record a call and let the clock advance. *)
Definition record_call (c : syscall) : IO unit :=
  fun w =>
    (Ok tt, mkWorld (files w) (now w + 1) (faults w) (calls w ++ [c])
                    (stdout w) (draws w)).

(** Take the next planned fault. *)
Definition next_fault : IO (option nat) :=
  fun w =>
    (Ok (default None (head (faults w))),
     mkWorld (files w) (now w) (List.tl (faults w)) (calls w) (stdout w) (draws w)).

Definition enter (c : syscall) : IO (option nat) :=
  record_call c;;
  next_fault.

Definition io_error (what : string) (p : string) : exn :=
  mkExn IOError (what +:+ ": '" +:+ p +:+ "'").

(** A call that either fails as planned or goes on. *)
Definition fallible (c : syscall) (p : string) : IO unit :=
  f ← enter c;
  match f with
  | Some _ => se_raise (io_error "Input/output error" p)
  | None => mret tt
  end.

Definition lookup_file (p : string) : IO File :=
  fun w =>
    match files w !! p with
    | Some f => (Ok f, w)
    | None => (Raise (io_error "No such file or directory" p), w)
    end.

(** [print(s)] *)
Definition print (s : string) : IO unit :=
  fun w => (Ok tt, mkWorld (files w) (now w) (faults w) (calls w)
                           (stdout w ++ [s]) (draws w)).

(** [os.path.getsize(p)] *)
Definition os_path_getsize (p : string) : IO nat :=
  fallible (SysGetsize p) p;;
  f ← lookup_file p;
  mret (length (f_data f)).

(** A buffered file object: the path it was opened on and its position. *)
Record handle : Type := mkHandle { h_path : string; h_pos : nat }.

(** [open(p, mode)] for the three modes of the program: ["rb"] and ["r+b"]
    need the file to exist, ["wb"] creates it or truncates it to nothing. *)
Definition open_ (p : string) (mode : string) : IO handle :=
  fallible (SysOpen p mode) p;;
  (if String.eqb mode "wb" then
     update_files (fun w => <[p := mkFile [] (now w)]> (files w))
   else
     _ ← lookup_file p; mret tt);;
  mret (mkHandle p 0).

Definition close (h : handle) : IO unit :=
  record_call (SysClose (h_path h)).

(** [with open(p, mode) as f: body f]: the file is closed on every exit. *)
Definition with_open {A} (p mode : string) (body : handle -> IO A) : IO A :=
  h ← open_ p mode;
  finally (body h) (close h).

(** [f.read(n)] : up to [n] bytes from the current position. *)
Definition f_read (h : handle) (n : nat) : IO (bytes * handle) :=
  fallible (SysRead (h_path h)) (h_path h);;
  f ← lookup_file (h_path h);
  let chunk := take n (drop (h_pos h) (f_data f)) in
  mret (chunk, mkHandle (h_path h) (h_pos h + length chunk)).

(** [f.seek(pos)] *)
Definition f_seek (h : handle) (pos : nat) : IO handle :=
  fallible (SysSeek (h_path h) pos) (h_path h);;
  mret (mkHandle (h_path h) pos).

(** Bytes of a file after [data] is stored at offset [pos]. *)
Definition overwrite_at (pos : nat) (data old : bytes) : bytes :=
  take pos old ++ data ++ drop (pos + length data) old.

Definition store (p : string) (pos : nat) (data : bytes) : IO unit :=
  f ← lookup_file p;
  update_files (fun w => <[p := mkFile (overwrite_at pos data (f_data f)) (now w)]> (files w)).

(** [f.write(data)] *)
Definition f_write (h : handle) (data : bytes) : IO handle :=
  flt ← enter (SysWrite (h_path h) data);
  match flt with
  | Some k =>
      store (h_path h) (h_pos h) (take k data);;
      se_raise (io_error "Input/output error" (h_path h))
  | None =>
      store (h_path h) (h_pos h) data;;
      mret (mkHandle (h_path h) (h_pos h + length data))
  end.

(** [f.flush()] *)
Definition f_flush (h : handle) : IO unit :=
  fallible (SysFlush (h_path h)) (h_path h).

(** [os.fsync(f.fileno())] *)
Definition os_fsync (h : handle) : IO unit :=
  fallible (SysFsync (h_path h)) (h_path h).

(** [os.remove(p)] *)
Definition os_remove (p : string) : IO unit :=
  fallible (SysRemove p) p;;
  _ ← lookup_file p;
  update_files (fun w => delete p (files w)).

(** [os.replace(src, dst)]: an atomic rename over [dst]. *)
Definition os_replace (src dst : string) : IO unit :=
  fallible (SysReplace src dst) src;;
  f ← lookup_file src;
  update_files (fun w => <[dst := f]> (delete src (files w))).

(** [shutil.copy2(src, dst)]: contents, then the timestamps. *)
Definition shutil_copy2 (src dst : string) : IO unit :=
  flt ← enter (SysCopy2 src dst);
  f ← lookup_file src;
  if String.eqb src dst then
    se_raise (mkExn OtherError ("'" +:+ src +:+ "' and '" +:+ dst +:+ "' are the same file"))
  else
    match flt with
    | Some k =>
        update_files (fun w => <[dst := mkFile (take k (f_data f)) (now w)]> (files w));;
        se_raise (io_error "Input/output error" dst)
    | None =>
        update_files (fun w => <[dst := mkFile (f_data f) (f_mtime f)]> (files w))
    end.

(** [os.path.exists(p)] *)
Definition os_path_exists (p : string) : IO bool :=
  record_call (SysExists p);;
  w ← se_get;
  mret (bool_decide (is_Some (files w !! p))).

(** [f.read()]: everything from the current position. *)
Definition f_readall (h : handle) : IO bytes :=
  fallible (SysRead (h_path h)) (h_path h);;
  f ← lookup_file (h_path h);
  mret (drop (h_pos h) (f_data f)).

(** Reading a whole file on behalf of a library that is given a path. *)
Definition read_file (p : string) : IO bytes :=
  with_open p "rb" f_readall.

(** Bytes left between the position of [h] and the end of its file (not a
    system call: a bound for the read loops). *)
Definition remaining (h : handle) : IO nat :=
  w ← se_get;
  mret (match files w !! h_path h with
        | Some f => length (f_data f) - h_pos h
        | None => 0
        end)%nat.

(** *** Function frames

    A Python function whose [except] clause looks at a dictionary the [try]
    block was filling runs over the machine paired with that local. *)

Definition io {L A} (c : IO A) : SE (World * L) A :=
  fun s => match c (fst s) with (r, w') => (r, (w', snd s)) end.

Definition local {L} : SE (World * L) L := fun s => (Ok (snd s), s).

Definition assign {L} (f : L -> L) : SE (World * L) unit :=
  fun s => (Ok tt, (fst s, f (snd s))).

Definition with_local {L A} (init : L) (body : SE (World * L) A) : IO A :=
  fun w => match body (w, init) with (r, s') => (r, fst s') end.

Definition finally_in {L A} (body : SE (World * L) A) (cleanup : IO unit)
  : SE (World * L) A :=
  fun s => match body s with (r, s') => (r, (snd (cleanup (fst s')), snd s')) end.

Definition with_open_in {L A} (p mode : string) (body : handle -> SE (World * L) A)
  : SE (World * L) A :=
  h ← io (open_ p mode);
  finally_in (body h) (close h).

(** ** The libraries the program imports *)

(** [hashlib]: a hash object is the bytes fed to it so far; [hexdigest] is the
    hexadecimal form of the digest of those bytes. *)
Record Hashlib : Type := mkHashlib {
  md5_digest : bytes -> bytes;
  sha1_digest : bytes -> bytes;
  sha256_digest : bytes -> bytes
}.

(** The digest sizes of the three algorithms (16, 20 and 32 bytes). *)
Definition hashlib_sizes (H : Hashlib) : Prop :=
  (forall d, length (md5_digest H d) = 16%nat) /\
  (forall d, length (sha1_digest H d) = 20%nat) /\
  (forall d, length (sha256_digest H d) = 32%nat).

(** [python-magic]: content sniffing. *)
Record Magic : Type := mkMagic {
  magic_mime : bytes -> result string;
  magic_description : bytes -> result string
}.

(** [PIL.Image]: an opened image. [img_getexif] is [None] when the object has
    no [_getexif] attribute, otherwise what calling it does. *)
Record Image : Type := mkImage {
  img_format : pyval;
  img_mode : string;
  img_size : nat * nat;
  img_getexif : option (result (option (list (Z * pyval))));
  img_getdata : result (list pyval)
}.

(** An image built in memory by [Image.new] and [putdata]. *)
Record Bitmap : Type := mkBitmap {
  bm_mode : string;
  bm_size : nat * nat;
  bm_pixels : list pyval
}.

(** [Pillow]. [Image_registered] tells whether [save] knows a format for the
    file name; [Image_encode] is the encoder [save] then runs. *)
Record Pillow : Type := mkPillow {
  Image_open : bytes -> result Image;
  TAGS : Z -> option string;
  GPSTAGS : Z -> option string;
  Image_new : string -> nat * nat -> result Bitmap;
  Image_putdata : Bitmap -> list pyval -> result Bitmap;
  Image_registered : string -> bool;
  Image_encode : string -> Bitmap -> result bytes
}.

(** [PyPDF2.PdfReader] on an open file. *)
Record PdfDocument : Type := mkPdf {
  pdf_pages : result (list bytes);
  pdf_is_encrypted : result bool;
  pdf_metadata : result (option (list (string * pyval)))
}.

(** [PyPDF2]. [PdfWriter_write] is what a fresh writer holding the given pages
    serialises to. *)
Record PyPDF2Lib : Type := mkPyPDF2 {
  PdfReader : bytes -> result PdfDocument;
  PdfWriter_write : list bytes -> result bytes
}.

(** [mutagen]: [audio.info] attributes are present or not ([hasattr]). *)
Record AudioInfo : Type := mkAudioInfo {
  info_length : option pyval;
  info_bitrate : option pyval;
  info_sample_rate : option pyval;
  info_channels : option pyval
}.

Record Audio : Type := mkAudio {
  audio_info : AudioInfo;
  audio_tags : option (list (pyval * pyval))
}.

(** [mutagen_strip] is the file content left by [audio.delete()] followed by
    [audio.save()]. *)
Record Mutagen : Type := mkMutagen {
  mutagen_File : bytes -> result (option Audio);
  mutagen_strip : bytes -> result bytes
}.

(** Operations of the Python runtime that the embedding does not compute:
    [str(v)], [bytes.decode("utf-8", errors="ignore")], [f"{v:.2f}"] and
    [v // n] on a dynamically typed value (both raise on a value of the wrong
    type), the ["%.4f"] float format, [math.log2] and [os.urandom] (the
    [i]-th draw of [n] bytes); and the lines [print_metadata] writes for a
    non-empty report and a title. *)
Record Runtime : Type := mkRuntime {
  py_str : pyval -> string;
  utf8_decode_ignore : bytes -> string;
  py_format_2f : pyval -> result string;
  py_floordiv : pyval -> Z -> result pyval;
  fmt_4f : float -> string;
  math_log2 : float -> float;
  urandom : nat -> nat -> bytes;
  render_metadata : report -> string -> list string
}.

(** What is assumed of the runtime: [os.urandom(n)] has [n] bytes and
    [math.log2(1.0)] is [0.0]. *)
Definition runtime_ok (R : Runtime) : Prop :=
  (forall i n, length (urandom R i n) = n) /\
  math_log2 R 1%float = 0%float.

(** ** Hexadecimal digests *)

Definition hex_digit (n : nat) : ascii :=
  if (n <? 10)%nat then ascii_of_nat (48 + n) else ascii_of_nat (87 + n).

Definition hex_of_byte (b : byte) : string :=
  let n := Byte.to_nat b in
  String (hex_digit (n / 16)) (String (hex_digit (n mod 16)) EmptyString).

(** [hexdigest()] of a digest *)
Fixpoint hexlify (d : bytes) : string :=
  match d with
  | [] => EmptyString
  | b :: d' => hex_of_byte b +:+ hexlify d'
  end.

Definition is_lower_hex (c : ascii) : bool :=
  let n := nat_of_ascii c in
  ((48 <=? n) && (n <=? 57) || (97 <=? n) && (n <=? 102))%nat.

Fixpoint all_chars (P : ascii -> bool) (s : string) : bool :=
  match s with
  | EmptyString => true
  | String c s' => P c && all_chars P s'
  end.

(** ** The program *)

Section Program.

Variable hashlib : Hashlib.
Variable magic : Magic.
Variable PIL : option Pillow.
Variable PyPDF2 : option PyPDF2Lib.
Variable mutagen : option Mutagen.
Variable rt : Runtime.

(** The import guards at the top of the module. *)
Definition PIL_AVAILABLE : bool := bool_decide (is_Some PIL).
Definition PYPDF2_AVAILABLE : bool := bool_decide (is_Some PyPDF2).
Definition MUTAGEN_AVAILABLE : bool := bool_decide (is_Some mutagen).

(** *** [calculate_file_hashes] *)

(** [while data := f.read(bs): md5.update(data); sha1.update(data);
    sha256.update(data)].  [fuel] bounds the number of reads; with more fuel
    than bytes left the bound is never met ([read_chunks_enough]). *)
Fixpoint read_chunks (fuel bs : nat) (f : handle) (md5 sha1 sha256 : bytes)
  : IO (bytes * bytes * bytes) :=
  match fuel with
  | O => se_raise (mkExn OtherError "read budget exhausted")
  | S fuel' =>
      r ← f_read f bs;
      match fst r with
      | [] => mret (md5, sha1, sha256)
      | _ :: _ =>
          let data := fst r in
          read_chunks fuel' bs (snd r) (md5 ++ data) (sha1 ++ data) (sha256 ++ data)
      end
  end.

Definition calculate_file_hashes (fp : string) (bs : nat) : IO report :=
  with_local ([] : report)
    (try_except
       (d ← io (with_open fp "rb" (fun f =>
                  n ← remaining f;
                  read_chunks (S n) bs f [] [] []));
        assign (dict_set "MD5" (VStr (hexlify (md5_digest hashlib (fst (fst d))))));;
        assign (dict_set "SHA-1" (VStr (hexlify (sha1_digest hashlib (snd (fst d))))));;
        assign (dict_set "SHA-256" (VStr (hexlify (sha256_digest hashlib (snd d))))))
       (except_Exception (fun e =>
          assign (dict_set "Error" (VStr ("Could not calculate hashes: " +:+ exn_str e)))));;
     local).

(** *** [get_file_type_info] *)

Definition expected : list (string * list string) :=
  [("image/jpeg", [".jpg"; ".jpeg"]);
   ("image/png", [".png"]);
   ("application/pdf", [".pdf"]);
   ("text/plain", [".txt"]);
   ("application/zip", [".zip"])].

Fixpoint assoc {A} (k : string) (l : list (string * A)) : option A :=
  match l with
  | [] => None
  | (k', v) :: l' => if String.eqb k k' then Some v else assoc k l'
  end.

(** Python truth of a string *)
Definition nonempty (s : string) : bool := negb (String.eqb s "").

(** [magic.Magic(...).from_file(fp)] *)
Definition from_file (sniff : bytes -> result string) (fp : string) : IO string :=
  data ← read_file fp;
  se_lift (sniff data).

Definition get_file_type_info (fp : string) : IO report :=
  with_local ([] : report)
    (try_except
       (mime_type ← io (from_file (magic_mime magic) fp);
        assign (dict_set "MIME Type" (VStr mime_type));;
        desc ← io (from_file (magic_description magic) fp);
        assign (dict_set "File Type Description" (VStr desc));;
        let ext := lower (Path.suffix (Path.of_string fp)) in
        match assoc mime_type expected with
        | Some exts =>
            if negb (str_in ext exts) then
              assign (dict_set
                        (if nonempty ext then "⚠ Extension Mismatch" else "⚠ No Extension")
                        (VStr ("File is " +:+ mime_type +:+ " but has "
                               +:+ (if nonempty ext then ext else "no") +:+ " extension")))
            else mret tt
        | None => mret tt
        end)
       (fun e =>
          if is_ImportError e then
            Some (assign (dict_set "Note"
                    (VStr "python-magic not installed. Install with: pip install python-magic")))
          else
            Some (assign (dict_set "Error" (VStr (exn_str e)))));;
     local).

(** *** [get_image_exif_metadata] *)

(** [for x in xs: body x] *)
Fixpoint for_each {S A} (xs : list A) (body : A -> SE S unit) : SE S unit :=
  match xs with
  | [] => se_ret tt
  | x :: xs' => se_bind (body x) (fun _ => for_each xs' body)
  end.

(** [D.get(k, k)] on a tag table keyed by integers *)
Definition tag_name (table : Z -> option string) (k : pykey) : pykey :=
  match k with
  | KInt n => match table n with Some s => KStr s | None => k end
  | KStr _ => k
  end.

(** [val.items()]: only a dictionary has them. *)
Definition items_of (v : pyval) : result (list (pykey * pyval)) :=
  match v with
  | VDict d => Ok d
  | _ => Raise (mkExn AttributeError "object has no attribute 'items'")
  end.

(** [str(n)] of an integer *)
Definition str_nat (n : nat) : string := pretty n.
Definition str_Z (n : Z) : string := pretty n.

(** The body of the tag loop of [get_image_exif_metadata]. *)
Definition exif_tag (pil : Pillow) (tid : Z) (val : pyval) : SE (World * report) unit :=
  let tag := tag_name (TAGS pil) (KInt tid) in
  if pykey_eqb tag "GPSInfo" then
    gps ← se_lift (items_of val);
    assign (dict_set "GPS Data"
              (VStr (py_str rt (VDict (dict_update []
                 (map (fun kv => (tag_name (GPSTAGS pil) (fst kv), snd kv)) gps))))))
  else
    let val' :=
      match val with
      | VBytes b =>
          if (100 <? length b)%nat
          then VStr ("<Binary Data, " +:+ str_nat (length b) +:+ " bytes>")
          else VStr (utf8_decode_ignore rt b)
      | VStr s =>
          if (100 <? String.length s)%nat then VStr (str_take 100 s +:+ "...") else val
      | _ => val
      end in
    assign (dict_set tag val').

(** The [try] block of [get_image_exif_metadata]; its value is what the
    function returns from inside the block. *)
Definition image_exif_try (pil : Pillow) (fp : string) : SE (World * report) (option report) :=
  img ← io (data ← read_file fp; se_lift (Image_open pil data));
  assign (dict_set "Image Format" (img_format img));;
  assign (dict_set "Image Mode" (VStr (img_mode img)));;
  assign (dict_set "Image Size"
            (VStr (str_nat (fst (img_size img)) +:+ " x "
                   +:+ str_nat (snd (img_size img)) +:+ " pixels")));;
  no_exif ← match img_getexif img with
            | None => mret true
            | Some call => e ← se_lift call; mret (bool_decide (e = None))
            end;
  if (no_exif : bool) then
    assign (dict_set "EXIF Status" (VStr "No EXIF data found"));;
    exif ← local; mret (Some exif)
  else
    tags ← match img_getexif img with
           | Some call =>
               e ← se_lift call;
               se_lift (match e with
                        | Some d => Ok d
                        | None => Raise (mkExn AttributeError
                            "'NoneType' object has no attribute 'items'")
                        end)
           | None => se_raise (mkExn AttributeError "_getexif")
           end;
    for_each tags (fun kv => exif_tag pil (fst kv) (snd kv));;
    exif ← local; mret (Some exif).

(** [except IOError: return None / except Exception as e: return {...}] *)
Definition image_exif_except (e : exn) : option (SE (World * report) (option report)) :=
  if is_IOError e then Some (mret None)
  else Some (mret (Some [(KStr "Error", VStr ("EXIF extraction error: " +:+ exn_str e))])).

Definition get_image_exif_metadata (fp : string) : IO (option report) :=
  match PIL with
  | None => mret (Some [(KStr "Note",
                        VStr "Pillow library not installed. Cannot extract EXIF metadata.")])
  | Some pil =>
      with_local ([] : report) (try_except (image_exif_try pil fp) image_exif_except)
  end.

(** *** [get_pdf_metadata] *)

(** Python truth of [pdf.metadata] *)
Definition has_items {A} (o : option (list A)) : bool :=
  match o with Some (_ :: _) => true | _ => false end.

(** The [try] block of [get_pdf_metadata]. *)
Definition pdf_metadata_try (lib : PyPDF2Lib) (fp : string) : SE (World * report) unit :=
  with_open_in fp "rb" (fun f =>
    data ← io (f_readall f);
    pdf ← se_lift (PdfReader lib data);
    pages ← se_lift (pdf_pages pdf);
    enc ← se_lift (pdf_is_encrypted pdf);
    assign (dict_set "Number of Pages" (VInt (Z.of_nat (length pages))));;
    assign (dict_set "Encrypted" (VBool enc));;
    md ← se_lift (pdf_metadata pdf);
    if has_items md then
      md' ← se_lift (pdf_metadata pdf);
      assign (fun m => dict_update m
                (dict_update []
                   (map (fun kv => (KStr (lstrip "/" (fst kv)), snd kv))
                        (default [] md'))))
    else mret tt).

Definition pdf_metadata_except (e : exn) : option (SE (World * report) unit) :=
  Some (assign (dict_set "Error" (VStr ("PDF extraction error: " +:+ exn_str e)))).

Definition get_pdf_metadata (fp : string) : IO report :=
  match PyPDF2 with
  | None => mret [(KStr "Note", VStr "PyPDF2 not installed. Install with: pip install PyPDF2")]
  | Some lib =>
      with_local ([] : report)
        (try_except (pdf_metadata_try lib fp) pdf_metadata_except;;
         local)
  end.

(** *** [get_audio_video_metadata] *)

(** [if hasattr(audio.info, attr): m[key] = render(audio.info.attr)] *)
Definition assign_if (o : option pyval) (key : string) (render : pyval -> result pyval)
  : SE (World * report) unit :=
  match o with
  | Some x => v ← se_lift (render x); assign (dict_set key v)
  | None => mret tt
  end.

Definition fmap_result {A B} (f : A -> B) (r : result A) : result B :=
  match r with
  | Ok a => Ok (f a)
  | Raise e => Raise e
  end.

(** The [try] block of [get_audio_video_metadata]; [Some r] is its early
    [return r]. *)
Definition audio_video_try (lib : Mutagen) (fp : string) : SE (World * report) (option report) :=
  audio ← io (data ← read_file fp; se_lift (mutagen_File lib data));
  match audio with
  | None => mret (Some [(KStr "Note", VStr "Not a recognized audio/video file")])
  | Some a =>
      let info := audio_info a in
      assign_if (info_length info) "Duration"
        (fun x => fmap_result (fun s => VStr (s +:+ " seconds")) (py_format_2f rt x));;
      assign_if (info_bitrate info) "Bitrate"
        (fun x => fmap_result (fun q => VStr (py_str rt q +:+ " kbps"))
                              (py_floordiv rt x 1000));;
      assign_if (info_sample_rate info) "Sample Rate"
        (fun x => Ok (VStr (py_str rt x +:+ " Hz")));;
      assign_if (info_channels info) "Channels" Ok;;
      (if has_items (audio_tags a) then
         assign (fun m => dict_update m
                   (dict_update []
                      (map (fun kv => (KStr (py_str rt (fst kv)), VStr (py_str rt (snd kv))))
                           (default [] (audio_tags a)))))
       else mret tt);;
      mret None
  end.

Definition audio_video_except (e : exn) : option (SE (World * report) (option report)) :=
  Some (assign (dict_set "Error" (VStr ("Audio/video extraction error: " +:+ exn_str e)));;
        mret None).

Definition get_audio_video_metadata (fp : string) : IO report :=
  match mutagen with
  | None => mret [(KStr "Note", VStr "mutagen not installed. Install with: pip install mutagen")]
  | Some lib =>
      with_local ([] : report)
        (early ← try_except (audio_video_try lib fp) audio_video_except;
         match early with
         | Some r => mret r
         | None => local
         end)
  end.

(** *** [analyze_file_entropy] *)

(** A count as a float. Exact below 2^53, far above the sample bound. *)
Definition float_of_nat (n : nat) : float :=
  PrimFloat.of_uint63 (Uint63.of_Z (Z.of_nat n)).

(** [a / b] on two integers *)
Definition true_div (a b : nat) : float :=
  PrimFloat.div (float_of_nat a) (float_of_nat b).

(** [freq = [0] * 256; for b in data: freq[b] += 1] *)
Definition histogram (data : bytes) : list nat :=
  fold_left (fun freq b => alter S (Byte.to_nat b) freq) data (replicate 256 0%nat).

(** [-sum((c/len(data)) * math.log2(c/len(data)) for c in freq if c > 0)] *)
Definition shannon_entropy (data : bytes) : float :=
  let n := length data in
  PrimFloat.opp
    (fold_left PrimFloat.add
       (map (fun c => PrimFloat.mul (true_div c n) (math_log2 rt (true_div c n)))
            (filter (fun c => 0 < c)%nat (histogram data)))
       0%float).

Definition entropy_class (ent : float) : string :=
  if PrimFloat.ltb 7.5%float ent then "High entropy - possibly encrypted or compressed"
  else if PrimFloat.ltb ent 4%float then "Low entropy - likely plain text or repetitive data"
  else "Medium entropy - typical binary data".

Definition analyze_file_entropy (fp : string) (ss : nat) : IO report :=
  try_except
    (data ← with_open fp "rb" (fun f => r ← f_read f ss; mret (fst r));
     if (length data =? 0)%nat then
       mret [(KStr "Entropy", VStr "N/A (empty file)")]
     else
       let ent := shannon_entropy data in
       let r := dict_set "Entropy" (VStr (fmt_4f rt ent +:+ " bits/byte")) [] in
       let r := dict_set "Analysis" (VStr (entropy_class ent)) r in
       mret r)
    (except_Exception (fun e =>
       mret [(KStr "Error", VStr ("Entropy calculation error: " +:+ exn_str e))])).

(** *** The cleaners *)

(** [op or default] on an optional path *)
Definition py_or (op : option string) (dflt : string) : string :=
  match op with
  | Some s => if nonempty s then s else dflt
  | None => dflt
  end.

(** [clean.save(op)]: Pillow picks the format from the file name, opens the
    file for writing, which empties it, and then runs the encoder. *)
Definition Image_save (pil : Pillow) (clean : Bitmap) (op : string) : IO unit :=
  if negb (Image_registered pil op) then
    se_raise (mkExn ValueError ("unknown file extension: " +:+ op))
  else
    with_open op "wb" (fun out =>
      data ← se_lift (Image_encode pil op clean);
      _ ← f_write out data;
      mret tt).

Definition clean_image_metadata (fp : string) (op : option string) : IO (bool * string) :=
  match PIL with
  | None => mret (false, "Pillow library not available")
  | Some pil =>
      try_except
        (let op := py_or op fp in
         data ← read_file fp;
         img ← se_lift (Image_open pil data);
         clean ← se_lift (Image_new pil (img_mode img) (img_size img));
         pixels ← se_lift (img_getdata img);
         clean ← se_lift (Image_putdata pil clean pixels);
         Image_save pil clean op;;
         mret (true, "Metadata cleaned successfully"))
        (except_Exception (fun e =>
           mret (false, "Error cleaning image metadata: " +:+ exn_str e)))
  end.

Definition clean_pdf_metadata (fp : string) (op : option string) : IO (bool * string) :=
  match PyPDF2 with
  | None => mret (false, "PyPDF2 library not available")
  | Some lib =>
      try_except
        (let op := py_or op (fp +:+ ".cleaned.pdf") in
         with_open fp "rb" (fun f =>
           data ← f_readall f;
           reader ← se_lift (PdfReader lib data);
           pages ← se_lift (pdf_pages reader);
           with_open op "wb" (fun out =>
             doc ← se_lift (PdfWriter_write lib pages);
             _ ← f_write out doc;
             mret tt));;
         mret (true, "Cleaned PDF saved to: " +:+ op))
        (except_Exception (fun e =>
           mret (false, "Error cleaning PDF metadata: " +:+ exn_str e)))
  end.

(** [audio.delete(); audio.save()] on the file at [op] *)
Definition delete_and_save (lib : Mutagen) (op : string) : IO unit :=
  data ← read_file op;
  stripped ← se_lift (mutagen_strip lib data);
  with_open op "wb" (fun out => _ ← f_write out stripped; mret tt).

Definition clean_audio_metadata (fp : string) (op : option string) : IO (bool * string) :=
  match mutagen with
  | None => mret (false, "mutagen library not available")
  | Some lib =>
      try_except
        (let op := py_or op (fp +:+ ".cleaned" +:+ Path.suffix (Path.of_string fp)) in
         shutil_copy2 fp op;;
         data ← read_file op;
         audio ← se_lift (mutagen_File lib data);
         if match audio with Some a => has_items (audio_tags a) | None => false end then
           delete_and_save lib op;;
           mret (true, "Cleaned audio saved to: " +:+ op)
         else
           mret (true, "No metadata tags found to remove"))
        (except_Exception (fun e =>
           mret (false, "Error cleaning audio metadata: " +:+ exn_str e)))
  end.

(** *** [secure_wipe_file] *)

(** [os.urandom(n)] *)
Definition os_urandom (n : nat) : IO bytes :=
  fun w =>
    (Ok (urandom rt (draws w) n),
     mkWorld (files w) (now w) (faults w) (calls w ++ [SysUrandom n]) (stdout w)
             (S (draws w))).

(** [for i in range(passes): ...], the file object threaded through. *)
Fixpoint wipe_passes (range : list nat) (sz : nat) (f : handle) : IO handle :=
  match range with
  | [] => mret f
  | i :: range' =>
      f ← f_seek f 0;
      data ← (if negb (i =? 1)%nat then os_urandom sz else mret (replicate sz xff));
      f ← f_write f data;
      f_flush f;;
      os_fsync f;;
      wipe_passes range' sz f
  end.

Definition secure_wipe_file (fp : string) (passes : nat) : IO (bool * string) :=
  try_except
    (sz ← os_path_getsize fp;
     with_open fp "r+b" (fun f => _ ← wipe_passes (seq 0 passes) sz f; mret tt);;
     os_remove fp;;
     mret (true, "File securely wiped with " +:+ str_nat passes +:+ " passes"))
    (except_Exception (fun e =>
       mret (false, "Error during secure wipe: " +:+ exn_str e))).

(** *** [perform_cleaning] *)

Definition nl : string := String (ascii_of_nat 10) EmptyString.

(** ["=" * 70] *)
Definition bar : string := str_repeat "=" 70.

Definition image_exts : list string :=
  [".jpg"; ".jpeg"; ".png"; ".tiff"; ".bmp"; ".gif"].

(** The audio extensions [perform_cleaning] accepts. *)
Definition audio_clean_exts : list string :=
  [".mp3"; ".flac"; ".ogg"; ".m4a"; ".wav"].

(** The audio/video extensions [main] sends to the tag reader. *)
Definition audio_video_exts : list string :=
  [".mp3"; ".mp4"; ".flac"; ".ogg"; ".wav"; ".m4a"; ".avi"; ".mkv"].

(** [str(Path(fp).with_suffix("")) + ".cleaned" + ext] *)
Definition cleaned_path (fp ext : string) : result string :=
  match Path.with_suffix_empty (Path.of_string fp) with
  | Ok p => Ok (Path.to_string p +:+ ".cleaned" +:+ ext)
  | Raise e => Raise e
  end.

(** The format dispatch of the cleaning branch: [None] is the early [return]
    of the unsupported case, otherwise [(succ, msg)]. *)
Definition clean_dispatch (fp action ext : string) : IO (option (bool * string)) :=
  let op : option string := if String.eqb action "clean_overwrite" then None else None in
  if str_in ext image_exts then
    op ← (if String.eqb action "clean_copy"
          then p ← se_lift (cleaned_path fp ext); mret (Some p)
          else mret op);
    r ← clean_image_metadata fp op;
    mret (Some r)
  else if String.eqb ext ".pdf" then
    if String.eqb action "clean_overwrite" then
      let tp := fp +:+ ".temp.pdf" in
      r ← clean_pdf_metadata fp (Some tp);
      if (fst r : bool) then
        os_replace tp fp;;
        mret (Some (true, "PDF metadata cleaned (original overwritten)"))
      else mret (Some r)
    else
      r ← clean_pdf_metadata fp None;
      mret (Some r)
  else if str_in ext audio_clean_exts then
    op ← (if String.eqb action "clean_copy"
          then p ← se_lift (cleaned_path fp ext); mret (Some p)
          else mret op);
    r ← clean_audio_metadata fp op;
    mret (Some r)
  else
    print (nl +:+ "⚠  Metadata cleaning not supported for " +:+ ext +:+ " files");;
    print bar;;
    mret None.

Definition perform_cleaning (fp action : string) : IO unit :=
  if String.eqb action "skip" then mret tt
  else
    let ext := lower (Path.suffix (Path.of_string fp)) in
    print (nl +:+ bar);;
    if String.eqb action "secure_wipe" then
      print "  PERFORMING SECURE WIPE";;
      print bar;;
      print (nl +:+ "Wiping file with DOD 5220.22-M standard (3 passes)...");;
      r ← secure_wipe_file fp 3;
      (if (fst r : bool) then
         print (nl +:+ "✓ " +:+ snd r);;
         print "✓ File has been permanently deleted"
       else print (nl +:+ "✗ " +:+ snd r));;
      print bar
    else if str_in action ["clean_copy"; "clean_overwrite"] then
      print "  CLEANING METADATA";;
      print bar;;
      r ← clean_dispatch fp action ext;
      match r with
      | None => mret tt
      | Some (succ, msg) =>
          (if (succ : bool) then print (nl +:+ "✓ " +:+ msg)
           else print (nl +:+ "✗ " +:+ msg));;
          print bar
      end
    else print bar.

(** *** [print_metadata] and the format step of [main] *)

Definition print_metadata (md : report) (title : string) : IO unit :=
  match md with
  | [] => mret tt
  | _ :: _ => for_each (render_metadata rt md title) print
  end.

(** The extractor step of [main]: the chain that follows
    [ext = Path(fp).suffix.lower()]. *)
Definition main_format_metadata (fp : string) : IO unit :=
  let ext := lower (Path.suffix (Path.of_string fp)) in
  if str_in ext image_exts && PIL_AVAILABLE then
    exif ← get_image_exif_metadata fp;
    match exif with
    | Some ((_ :: _) as md) => print_metadata md "Image Metadata (EXIF)"
    | _ => mret tt
    end
  else if String.eqb ext ".pdf" then
    md ← get_pdf_metadata fp;
    print_metadata md "PDF Metadata"
  else if str_in ext audio_video_exts then
    md ← get_audio_video_metadata fp;
    print_metadata md "Audio/Video Metadata"
  else mret tt.

End Program.

(** ** A small concrete installation

    One instance of every library, used to run the program on concrete files. *)

Definition demo_hashlib : Hashlib :=
  mkHashlib (fun d => replicate 16 (List.last d x00))
            (fun d => replicate 20 (List.last d x00))
            (fun d => replicate 32 (List.last d x00)).

(** Sniffs the first byte: [0x89] opens a PNG, ["%"] a PDF. *)
Definition demo_magic : Magic :=
  mkMagic
    (fun d => match d with
              | x89 :: _ => Ok "image/png"
              | x25 :: _ => Ok "application/pdf"
              | _ => Ok "text/plain"
              end)
    (fun d => match d with
              | x89 :: _ => Ok "PNG image data"
              | x25 :: _ => Ok "PDF document"
              | _ => Ok "ASCII text"
              end).

(** Decodes a file that starts with [0x89] as an RGBA image whose pixels are
    the remaining bytes; like Pillow's JPEG plugin, refuses to write RGBA to a
    [.jpg] name. *)
Definition demo_PIL : Pillow :=
  mkPillow
    (fun d => match d with
              | x89 :: px =>
                  Ok (mkImage (VStr "PNG") "RGBA" (length px, 1%nat) (Some (Ok None))
                              (Ok (map VBytes (map (fun b => [b]) px))))
              | _ => Raise (mkExn IOError "cannot identify image file")
              end)
    (fun _ => None) (fun _ => None)
    (fun mode size => Ok (mkBitmap mode size []))
    (fun bm px => Ok (mkBitmap (bm_mode bm) (bm_size bm) px))
    (fun name => str_in (lower (Path.suffix (Path.of_string name))) [".png"; ".jpg"])
    (fun name bm =>
       if String.eqb (lower (Path.suffix (Path.of_string name))) ".jpg"
       then Raise (mkExn IOError "cannot write mode RGBA as JPEG")
       else Ok (x89 :: flat_map (fun v => match v with VBytes b => b | _ => [] end)
                                (bm_pixels bm))).

(** Reads a file that starts with ["%"]: the second byte stands for the
    document-info dictionary ([0xFF] for one that cannot be resolved), the
    rest is one page.  A writer emits ["%"], an empty document-info byte and
    the pages. *)
Definition demo_PyPDF2 : PyPDF2Lib :=
  mkPyPDF2
    (fun d => match d with
              | x25 :: info :: body =>
                  Ok (mkPdf (Ok [body]) (Ok false)
                            (match info with
                             | x00 => Ok (Some [])
                             | xff => Raise (mkExn OtherError "cannot resolve /Info")
                             | _ => Ok (Some [("/Author", VBytes [info])])
                             end))
              | _ => Raise (mkExn OtherError "EOF marker not found")
              end)
    (fun pages => Ok (x25 :: x00 :: concat pages)).

(** Reads a file that starts with ["I"] (as in [ID3]) as tagged audio, the tag
    being the second byte; any other file is audio without tags. *)
Definition demo_mutagen : Mutagen :=
  mkMutagen
    (fun d => Ok (Some (mkAudio (mkAudioInfo None (Some (VInt 128000)) (Some (VInt 44100)) None)
                                (match d with
                                 | x49 :: t :: _ => Some [(VStr "TIT2", VBytes [t])]
                                 | _ => None
                                 end))))
    (fun d => match d with
              | x49 :: _ :: rest => Ok rest
              | _ => Ok d
              end).

Definition demo_rt : Runtime :=
  mkRuntime
    (fun v => match v with VStr s => s | VInt n => pretty n | _ => "<object>" end)
    (fun _ => "")
    (fun v => match v with
              | VFloat _ => Ok "0.00"
              | _ => Raise (mkExn OtherError "unsupported format string")
              end)
    (fun v n => match v with
                | VInt a => Ok (VInt (a / n))
                | _ => Raise (mkExn OtherError "unsupported operand type(s) for //")
                end)
    (fun _ => "0.0000")
    (fun x => PrimFloat.sub x 1%float)
    (fun i n => replicate n (if Nat.even i then xa5 else x5a))
    (fun md title => [title]).

(** A machine with the given files, an idle clock and no planned fault. *)
Definition machine (fs : list (string * bytes)) : World :=
  mkWorld (list_to_map (map (fun pf => (fst pf, mkFile (snd pf) 0)) fs)) 100 [] [] [] 0.

(** The same machine with a plan of faults. *)
Definition machine_with_faults (fs : list (string * bytes)) (plan : list (option nat)) : World :=
  mkWorld (list_to_map (map (fun pf => (fst pf, mkFile (snd pf) 0)) fs)) 100 plan [] [] 0.

Definition content (w : World) (p : string) : option bytes :=
  f_data <$> files w !! p.

(** ** Vocabulary of the properties *)

(** An extension that none of the three cleaning branches takes. *)
Definition unsupported (ext : string) : Prop :=
  str_in ext image_exts = false /\ String.eqb ext ".pdf" = false /\
  str_in ext audio_clean_exts = false.

(** The two action codes of the metadata-cleaning branch. *)
Definition is_clean_action (action : string) : Prop :=
  action = "clean_copy" \/ action = "clean_overwrite".

(** The machine after [n] more recorded calls that touched no file. *)
Definition after_calls (w : World) (cs : list syscall) : World :=
  mkWorld (files w) (now w + Z.of_nat (length cs)) (faults w) (calls w ++ cs)
          (stdout w) (draws w).

(** The two fields every successful type report starts with. *)
Definition type_fields (mime desc : string) : report :=
  [(KStr "MIME Type", VStr mime); (KStr "File Type Description", VStr desc)].

(** A checker for [x / x = 1.0] on the floats of the integers in
    [[base, base + width)], where [width = 2 ^ d]. *)
Fixpoint div_self_ok (d : nat) (base width : Z) : bool :=
  match d with
  | O =>
      let x := PrimFloat.of_uint63 (Uint63.of_Z base) in
      PrimFloat.Leibniz.eqb (PrimFloat.div x x) 1%float
  | S d' =>
      let h := Z.div2 width in
      div_self_ok d' base h && div_self_ok d' (base + h) h
  end.

(** The two shapes of an entropy report. *)
Definition empty_file_sentinel : report :=
  [(KStr "Entropy", VStr "N/A (empty file)")].

Definition numeric_entropy_report (rt : Runtime) (ent : float) : report :=
  [(KStr "Entropy", VStr (fmt_4f rt ent +:+ " bits/byte"));
   (KStr "Analysis", VStr (entropy_class ent))].

(** The last character of a string. *)
Fixpoint str_last (s : string) : option ascii :=
  match s with
  | EmptyString => None
  | String c EmptyString => Some c
  | String _ s' => str_last s'
  end.

(** A report entry holding a lower-case hexadecimal string of a given length. *)
Definition hex_entry (key : string) (len : nat) (kv : pykey * pyval) : Prop :=
  exists s : string,
    kv = (KStr key, VStr s) /\ String.length s = len /\ all_chars is_lower_hex s = true.

(** The three digests of [data], as the report lists them. *)
Definition digest_report (H : Hashlib) (data : bytes) : report :=
  [(KStr "MD5", VStr (hexlify (md5_digest H data)));
   (KStr "SHA-1", VStr (hexlify (sha1_digest H data)));
   (KStr "SHA-256", VStr (hexlify (sha256_digest H data)))].

(** The fault planned for the next fallible call. *)
Definition planned (w : World) : option nat := default None (head (faults w)).

(** The machine once a fallible call is recorded and its plan entry taken. *)
Definition tick (c : syscall) (w : World) : World :=
  mkWorld (files w) (now w + 1) (List.tl (faults w)) (calls w ++ [c]) (stdout w) (draws w).

(** The machine once a call outside the plan is recorded. *)
Definition note (c : syscall) (w : World) : World :=
  mkWorld (files w) (now w + 1) (faults w) (calls w ++ [c]) (stdout w) (draws w).

(** The machine with its filesystem replaced. *)
Definition with_files (fs : gmap string File) (w : World) : World :=
  mkWorld fs (now w) (faults w) (calls w) (stdout w) (draws w).

(** The file at [p] holding [data] from offset [pos] on, stamped with the
    time of the machine. *)
Definition stored (p : string) (pos : nat) (data : bytes) (f : File) (w : World) : World :=
  with_files (<[p := mkFile (overwrite_at pos data (f_data f)) (now w)]> (files w)) w.

(** What pass [i] writes: the fixed pattern on pass 1, otherwise the [d]-th
    draw of [os.urandom]. *)
Definition pass_data (rt : Runtime) (sz i d : nat) : bytes :=
  if (i =? 1)%nat then replicate sz xff else urandom rt d sz.

(** The calls made by the passes of [range], [d] draws having been made. *)
Fixpoint wipe_trace (rt : Runtime) (p : string) (sz : nat) (range : list nat) (d : nat)
  : list syscall :=
  match range with
  | [] => []
  | i :: range' =>
      if (i =? 1)%nat then
        [SysSeek p 0; SysWrite p (pass_data rt sz i d); SysFlush p; SysFsync p]
          ++ wipe_trace rt p sz range' d
      else
        [SysSeek p 0; SysUrandom sz; SysWrite p (pass_data rt sz i d); SysFlush p; SysFsync p]
          ++ wipe_trace rt p sz range' (S d)
  end.

(** What an extractor returns when its library is not installed. *)
Definition pillow_note : report :=
  [(KStr "Note", VStr "Pillow library not installed. Cannot extract EXIF metadata.")].

Definition pypdf2_note : report :=
  [(KStr "Note", VStr "PyPDF2 not installed. Install with: pip install PyPDF2")].

Definition mutagen_note : report :=
  [(KStr "Note", VStr "mutagen not installed. Install with: pip install mutagen")].

(** A triple on the local dictionary of a function frame, with one
    postcondition for the normal exit and one for the exceptional exit. *)
Definition triple {A} (Q : report -> Prop) (c : SE (World * report) A)
    (N : A -> report -> Prop) (X : report -> Prop) : Prop :=
  forall s : World * report,
    Q (snd s) ->
    match c s with
    | (Ok a, s') => N a (snd s')
    | (Raise _, s') => X (snd s')
    end.

(** When the [try] block of the PDF extractor raises, the dictionary is empty
    or holds the page count and the encryption flag. *)
Definition pdf_partial (m : report) : Prop :=
  m = [] \/
  exists (n : Z) (enc : bool),
    m = [(KStr "Number of Pages", VInt n); (KStr "Encrypted", VBool enc)].

(** A tagged audio file, two images, one of them RGBA under a [.jpg] name,
    and a PDF with a document-info entry. *)
Definition demo_files : list (string * bytes) :=
  [("song.mp3", [x49; x07; x01; x02; x03]);
   ("photo.jpg", [x89; x01; x02]);
   ("photo.png", [x89; x01; x02; x03]);
   ("doc.pdf", [x25; x07; x01; x02])].

(** The machine after [perform_cleaning] on the concrete installation. *)
Definition demo_clean (fp action : string) (w : World) : World :=
  snd (perform_cleaning (Some demo_PIL) (Some demo_PyPDF2) (Some demo_mutagen) demo_rt
         fp action w).

(** The block [c] leaves every path outside [ps] as it found it. *)
Definition frames {A} (ps : list string) (c : IO A) : Prop :=
  forall (w : World) (q : string), q ∉ ps -> files (snd (c w)) !! q = files w !! q.

(** A string without a path separator. *)
Definition no_slash (s : string) : bool :=
  all_chars (fun c => negb (Ascii.eqb c "/")) s.

(** The text after the last slash of a raw path string. *)
Definition basename (s : string) : string := List.last (split_on "/" s) "".

(** A directory prefix: empty, or ending with a slash. *)
Definition ends_dir (Y : string) : Prop := Y = "" \/ exists Y0 : string, Y = Y0 +:+ "/".

(** * Properties *)

(** ** The text and path helpers on samples *)

Example path_suffix_upper : lower (Path.suffix (Path.of_string "/tmp/Photo.JPG")) = ".jpg".
Proof. reflexivity. Qed.

Example path_suffix_hidden : Path.suffix (Path.of_string "dir/.bashrc") = "".
Proof. reflexivity. Qed.

Example path_suffix_trailing_dot : Path.suffix (Path.of_string "a/b.") = "".
Proof. reflexivity. Qed.

Example path_with_suffix :
  Path.to_string <$> match Path.with_suffix_empty (Path.of_string "./a//b.tar.gz") with
                     | Ok p => Some p | Raise _ => None end = Some "a/b.tar".
Proof. reflexivity. Qed.

Example hexlify_sample : hexlify [x00; xff; x3a] = "00ff3a".
Proof. reflexivity. Qed.


(** ** Running blocks *)

Lemma run_bind {S A B} (c : SE S A) (k : A -> SE S B) (s : S) :
  (c ≫= k) s = match c s with
               | (Ok a, s') => k a s'
               | (Raise e, s') => (Raise e, s')
               end.
Proof. reflexivity. Qed.

Lemma run_bind_ok {S A B} (c : SE S A) (k : A -> SE S B) (s s' : S) (a : A) :
  c s = (Ok a, s') -> (c ≫= k) s = k a s'.
Proof. intros H. rewrite run_bind, H. reflexivity. Qed.

Lemma run_bind_raise {S A B} (c : SE S A) (k : A -> SE S B) (s s' : S) (e : exn) :
  c s = (Raise e, s') -> (c ≫= k) s = (Raise e, s').
Proof. intros H. rewrite run_bind, H. reflexivity. Qed.

Lemma run_print (s : string) (w : World) :
  print s w = (Ok tt, mkWorld (files w) (now w) (faults w) (calls w) (stdout w ++ [s]) (draws w)).
Proof. reflexivity. Qed.

(** ** The cleaning dispatch on unsupported extensions *)

Lemma perform_cleaning_unsupported PIL PyPDF2 mutagen rt (fp action : string) (w : World) :
  is_clean_action action ->
  unsupported (lower (Path.suffix (Path.of_string fp))) ->
  perform_cleaning PIL PyPDF2 mutagen rt fp action w =
    (Ok tt,
     mkWorld (files w) (now w) (faults w) (calls w)
       (stdout w ++
          [nl +:+ bar; "  CLEANING METADATA"; bar;
           nl +:+ "⚠  Metadata cleaning not supported for "
              +:+ lower (Path.suffix (Path.of_string fp)) +:+ " files";
           bar])
       (draws w)).
Proof.
  intros Hact (Himg & Hpdf & Haud).
  unfold perform_cleaning, clean_dispatch.
  destruct Hact as [-> | ->]; cbn [String.eqb Ascii.eqb Bool.eqb str_in existsb orb];
    rewrite Himg, Hpdf, Haud;
    unfold mbind, se_mbind, se_bind, mret, se_mret, se_ret, print;
    cbn [files now faults calls stdout draws];
    rewrite <- !app_assoc; reflexivity.
Qed.

(** ** Fault-free runs of the primitives *)

Ltac se_unfold :=
  unfold read_file, with_open, with_open_in, finally, finally_in, open_, close,
    f_readall, f_read, f_seek, f_write, f_flush, os_fsync, os_remove, os_replace,
    os_path_getsize, store, fallible, enter, record_call, next_fault, lookup_file,
    update_files, set_files, io, local, assign, with_local, try_except,
    except_Exception, se_lift, se_raise, se_get, se_modify,
    mbind, se_mbind, se_bind, mret, se_mret, se_ret in *.

Lemma read_file_ok (p : string) (w : World) (f : File) :
  files w !! p = Some f -> faults w = [] ->
  read_file p w = (Ok (f_data f), after_calls w [SysOpen p "rb"; SysRead p; SysClose p]).
Proof.
  intros Hf Hq. destruct w as [fs t fl cl so dr]. cbn in Hf, Hq. subst fl.
  se_unfold. cbn. rewrite Hf. cbn. rewrite Hf. cbn.
  unfold after_calls. cbn. rewrite <- !app_assoc, drop_0.
  replace (t + 1 + 1 + 1) with (t + 3) by lia. reflexivity.
Qed.

Lemma from_file_ok (sniff : bytes -> result string) (p : string) (w : World) (f : File) :
  files w !! p = Some f -> faults w = [] ->
  from_file sniff p w =
    (sniff (f_data f), after_calls w [SysOpen p "rb"; SysRead p; SysClose p]).
Proof.
  intros Hf Hq. unfold from_file. rewrite run_bind, (read_file_ok p w f Hf Hq).
  unfold se_lift. reflexivity.
Qed.

(** ** The type classifier *)

(** C8: for a sniffed MIME type of the expectation table, the classifier's
    report is the two type fields alone exactly when the lower-cased extension
    is in the expected set; otherwise it carries one anomaly field, named
    "No Extension" for an absent extension and "Extension Mismatch" for a
    present one. *)
Theorem C8_extension_anomaly (magic : Magic) (fp : string) (w : World) (f : File)
    (mime desc : string) (exts : list string) :
  files w !! fp = Some f ->
  faults w = [] ->
  magic_mime magic (f_data f) = Ok mime ->
  magic_description magic (f_data f) = Ok desc ->
  assoc mime expected = Some exts ->
  let ext := lower (Path.suffix (Path.of_string fp)) in
  fst (get_file_type_info magic fp w) =
    Ok (if str_in ext exts then type_fields mime desc
        else if nonempty ext then
          type_fields mime desc ++
            [(KStr "⚠ Extension Mismatch",
              VStr ("File is " +:+ mime +:+ " but has " +:+ ext +:+ " extension"))]
        else
          type_fields mime desc ++
            [(KStr "⚠ No Extension",
              VStr ("File is " +:+ mime +:+ " but has no extension"))]).
Proof.
  intros Hf Hq Hmime Hdesc Htab ext.
  unfold get_file_type_info, with_local, try_except.
  rewrite run_bind.
  set (w1 := after_calls w [SysOpen fp "rb"; SysRead fp; SysClose fp]).
  assert (Hf1 : files w1 !! fp = Some f) by exact Hf.
  assert (Hq1 : faults w1 = []) by exact Hq.
  unfold mbind at 1, se_mbind, se_bind at 1, io at 1. cbn [fst snd].
  rewrite (from_file_ok _ fp w f Hf Hq), Hmime. fold w1.
  unfold mbind at 1, se_mbind, se_bind at 1, assign at 1. cbn [fst snd].
  unfold mbind at 1, se_mbind, se_bind at 1, io at 1. cbn [fst snd].
  rewrite (from_file_ok _ fp w1 f Hf1 Hq1), Hdesc.
  unfold mbind at 1, se_mbind, se_bind at 1, assign at 1. cbn [fst snd].
  fold ext. rewrite Htab.
  destruct (str_in ext exts); cbn [negb].
  - reflexivity.
  - destruct (nonempty ext); reflexivity.
Qed.

(** ** Entropy *)

Lemma div_self_ok_sound (d : nat) :
  forall base z : Z,
    div_self_ok d base (2 ^ Z.of_nat d) = true ->
    base <= z < base + 2 ^ Z.of_nat d ->
    PrimFloat.div (PrimFloat.of_uint63 (Uint63.of_Z z))
                  (PrimFloat.of_uint63 (Uint63.of_Z z)) = 1%float.
Proof.
  induction d as [|d IH]; intros base z Hok Hz.
  - cbn in Hz. assert (z = base) by lia. subst z.
    cbn [div_self_ok] in Hok. apply FloatAxioms.Leibniz.eqb_spec in Hok. exact Hok.
  - cbn [div_self_ok] in Hok.
    assert (Hh : Z.div2 (2 ^ Z.of_nat (S d)) = 2 ^ Z.of_nat d).
    { rewrite Z.div2_div, Nat2Z.inj_succ, Z.pow_succ_r by lia.
      rewrite Z.mul_comm, Z.div_mul by lia. reflexivity. }
    rewrite Hh in Hok. apply andb_prop in Hok as [H1 H2].
    assert (Hpow : 2 ^ Z.of_nat (S d) = 2 * 2 ^ Z.of_nat d).
    { rewrite Nat2Z.inj_succ, Z.pow_succ_r by lia. reflexivity. }
    destruct (Z_lt_le_dec z (base + 2 ^ Z.of_nat d)).
    + apply (IH base z H1). lia.
    + apply (IH (base + 2 ^ Z.of_nat d) z H2). lia.
Qed.

Lemma div_self_ok_sample : div_self_ok 20 1 (2 ^ 20) = true.
Proof. vm_compute. reflexivity. Qed.

(** [n / n] is exactly [1.0] for every sample length up to 1 MiB. *)
Lemma true_div_self (n : nat) :
  1 <= Z.of_nat n <= 2 ^ 20 -> true_div n n = 1%float.
Proof.
  intros Hn. unfold true_div, float_of_nat.
  apply (div_self_ok_sound 20 1 (Z.of_nat n) div_self_ok_sample).
  change (Z.of_nat 20) with 20. lia.
Qed.

Lemma histogram_replicate_fold (b : byte) (n : nat) :
  forall freq : list nat,
    fold_left (fun fr (x : byte) => alter S (Byte.to_nat x) fr) (replicate n b) freq
    = alter (Nat.add n) (Byte.to_nat b) freq.
Proof.
  induction n as [|n IH]; intros freq; cbn [replicate fold_left].
  - symmetry. apply list_alter_id. intros x. reflexivity.
  - rewrite IH, list_alter_alter_eq. apply list_alter_ext; [|reflexivity].
    intros x _. cbn. lia.
Qed.

Lemma filter_positive_zeros (m : nat) :
  filter (fun c : nat => (0 < c)%nat) (replicate m 0%nat) = [].
Proof.
  induction m as [|m IH]; [reflexivity|].
  cbn [replicate]. rewrite filter_cons_False by lia. exact IH.
Qed.

Lemma alter_replicate_zero (f : nat -> nat) (m i : nat) :
  (i < m)%nat ->
  alter f i (replicate m 0%nat) = replicate i 0%nat ++ f 0%nat :: replicate (m - S i) 0%nat.
Proof.
  revert i. induction m as [|m IH]; intros i Hi; [lia|].
  destruct i as [|i]; cbn.
  - rewrite Nat.sub_0_r. reflexivity.
  - f_equal. apply IH. lia.
Qed.

(** The nonzero buckets of a buffer made of one repeated byte. *)
Lemma histogram_repeated (b : byte) (n : nat) :
  (0 < n)%nat ->
  filter (fun c : nat => (0 < c)%nat) (histogram (replicate n b)) = [n].
Proof.
  intros Hn. unfold histogram. rewrite histogram_replicate_fold.
  rewrite alter_replicate_zero by (pose proof (Byte.to_nat_bounded b); lia).
  rewrite filter_app, filter_positive_zeros, filter_cons_True by lia.
  rewrite filter_positive_zeros, Nat.add_0_r. reflexivity.
Qed.

Lemma shannon_entropy_repeated (rt : Runtime) (b : byte) (n : nat) :
  math_log2 rt 1%float = 0%float ->
  1 <= Z.of_nat n <= 2 ^ 20 ->
  shannon_entropy rt (replicate n b) = PrimFloat.opp 0%float.
Proof.
  intros Hlog Hn. unfold shannon_entropy.
  rewrite histogram_repeated by lia. rewrite length_replicate.
  cbn [map fold_left]. rewrite true_div_self by exact Hn. rewrite Hlog.
  reflexivity.
Qed.

Lemma analyze_file_entropy_ok (rt : Runtime) (fp : string) (ss : nat) (w : World) (f : File) :
  files w !! fp = Some f -> faults w = [] ->
  fst (analyze_file_entropy rt fp ss w) =
    Ok (match take ss (f_data f) with
        | [] => empty_file_sentinel
        | _ :: _ => numeric_entropy_report rt (shannon_entropy rt (take ss (f_data f)))
        end).
Proof.
  intros Hf Hq. destruct w as [fs t fl cl so dr]. cbn in Hf, Hq. subst fl.
  unfold analyze_file_entropy. se_unfold.
  cbn -[shannon_entropy entropy_class]. rewrite Hf.
  cbn -[shannon_entropy entropy_class]. rewrite Hf.
  cbn -[shannon_entropy entropy_class]. rewrite drop_0.
  destruct (take ss (f_data f)) eqn:E; reflexivity.
Qed.

Lemma str_last_app (a : string) (c : ascii) (b : string) :
  str_last (a +:+ String c b) = str_last (String c b).
Proof.
  induction a as [|x a IH]; [reflexivity|].
  change (String x a +:+ String c b) with (String x (a +:+ String c b)).
  cbn [str_last]. destruct (a +:+ String c b) eqn:E.
  - destruct a; discriminate.
  - exact IH.
Qed.

(** C7: when zero bytes are read the entropy report is the one-field sentinel;
    that field is no formatted number, and any non-empty sample yields the
    two-field numeric report instead. *)
Theorem C7_empty_file_sentinel (rt : Runtime) (fp : string) (ss : nat) (w : World) (f : File) :
  files w !! fp = Some f ->
  faults w = [] ->
  f_data f = [] ->
  fst (analyze_file_entropy rt fp ss w) = Ok empty_file_sentinel /\
  (forall x : float, "N/A (empty file)" <> fmt_4f rt x +:+ " bits/byte") /\
  (forall (w' : World) (f' : File),
      files w' !! fp = Some f' -> faults w' = [] -> take ss (f_data f') <> [] ->
      fst (analyze_file_entropy rt fp ss w') =
        Ok (numeric_entropy_report rt (shannon_entropy rt (take ss (f_data f')))) /\
      fst (analyze_file_entropy rt fp ss w') <> Ok empty_file_sentinel).
Proof.
  intros Hf Hq Hempty. split; [|split].
  - rewrite (analyze_file_entropy_ok rt fp ss w f Hf Hq), Hempty, take_nil. reflexivity.
  - intros x Heq. apply (f_equal str_last) in Heq.
    rewrite str_last_app in Heq. discriminate.
  - intros w' f' Hf' Hq' Hne.
    rewrite (analyze_file_entropy_ok rt fp ss w' f' Hf' Hq').
    destruct (take ss (f_data f')) eqn:E; [congruence|]. split; [reflexivity|].
    discriminate.
Qed.

(** C6: a non-empty sample made of one repeated byte has entropy negative
    zero, which equals [0.0], and is classified as low. *)
Theorem C6_repeated_byte_entropy (rt : Runtime) (fp : string) (ss : nat) (w : World)
    (f : File) (b : byte) (n : nat) :
  math_log2 rt 1%float = 0%float ->
  files w !! fp = Some f ->
  faults w = [] ->
  f_data f = replicate n b ->
  (0 < n)%nat ->
  0 < Z.of_nat ss <= 2 ^ 20 ->
  let sample := take ss (f_data f) in
  sample = replicate (min ss n) b /\
  shannon_entropy rt sample = PrimFloat.opp 0%float /\
  PrimFloat.eqb (shannon_entropy rt sample) 0%float = true /\
  entropy_class (shannon_entropy rt sample)
    = "Low entropy - likely plain text or repetitive data" /\
  fst (analyze_file_entropy rt fp ss w) =
    Ok [(KStr "Entropy", VStr (fmt_4f rt (PrimFloat.opp 0%float) +:+ " bits/byte"));
        (KStr "Analysis", VStr "Low entropy - likely plain text or repetitive data")].
Proof.
  intros Hlog Hf Hq Hdata Hn Hss sample.
  assert (Hs : sample = replicate (min ss n) b).
  { unfold sample. rewrite Hdata, take_replicate. reflexivity. }
  assert (Hent : shannon_entropy rt sample = PrimFloat.opp 0%float).
  { rewrite Hs. apply shannon_entropy_repeated; [exact Hlog|lia]. }
  split; [exact Hs|]. split; [exact Hent|].
  split; [rewrite Hent; reflexivity|].
  split; [rewrite Hent; reflexivity|].
  rewrite (analyze_file_entropy_ok rt fp ss w f Hf Hq). fold sample.
  rewrite Hent. rewrite Hs.
  destruct (min ss n) eqn:E; [lia|]. reflexivity.
Qed.

(** ** Digests *)

Lemma hex_of_byte_shape (b : byte) :
  String.length (hex_of_byte b) = 2%nat /\ all_chars is_lower_hex (hex_of_byte b) = true.
Proof. destruct b; split; reflexivity. Qed.

Lemma string_length_app (a b : string) :
  String.length (a +:+ b) = (String.length a + String.length b)%nat.
Proof.
  induction a as [|c a IH]; [reflexivity|].
  change (String c a +:+ b) with (String c (a +:+ b)).
  cbn [String.length]. rewrite IH. reflexivity.
Qed.

Lemma all_chars_app (P : ascii -> bool) (a b : string) :
  all_chars P (a +:+ b) = all_chars P a && all_chars P b.
Proof.
  induction a as [|c a IH]; [reflexivity|].
  change (String c a +:+ b) with (String c (a +:+ b)).
  cbn [all_chars]. rewrite IH, andb_assoc. reflexivity.
Qed.

Lemma hexlify_length (d : bytes) : String.length (hexlify d) = (2 * length d)%nat.
Proof.
  induction d as [|b d IH]; [reflexivity|].
  cbn [hexlify length]. rewrite string_length_app, IH.
  destruct (hex_of_byte_shape b) as [-> _]. lia.
Qed.

Lemma hexlify_lower_hex (d : bytes) : all_chars is_lower_hex (hexlify d) = true.
Proof.
  induction d as [|b d IH]; [reflexivity|].
  cbn [hexlify]. rewrite all_chars_app, IH.
  destruct (hex_of_byte_shape b) as [_ ->]. reflexivity.
Qed.

Lemma hex_entry_digest (key : string) (d : bytes) (n : nat) :
  length d = n -> hex_entry key (2 * n) (KStr key, VStr (hexlify d)).
Proof.
  intros <-. exists (hexlify d). split; [reflexivity|].
  split; [apply hexlify_length | apply hexlify_lower_hex].
Qed.

(** The read loop on a machine without faults: with more fuel than bytes left
    it feeds every remaining byte to the three hash objects. *)
Lemma read_chunks_enough (bs : nat) (p : string) (f : File) :
  (0 < bs)%nat ->
  forall (fuel pos : nat) (a b c : bytes) (w : World),
    files w !! p = Some f -> faults w = [] ->
    (length (f_data f) - pos < fuel)%nat ->
    exists w' : World,
      read_chunks fuel bs (mkHandle p pos) a b c w =
        (Ok (a ++ drop pos (f_data f), b ++ drop pos (f_data f), c ++ drop pos (f_data f)), w')
      /\ files w' = files w /\ faults w' = [] /\ stdout w' = stdout w.
Proof.
  intros Hbs. induction fuel as [|fuel IH]; intros pos a b c w Hf Hq Hfuel; [lia|].
  cbn [read_chunks].
  remember (take bs (drop pos (f_data f))) as chunk eqn:E.
  set (w1 := mkWorld (files w) (now w + 1) [] (calls w ++ [SysRead p]) (stdout w) (draws w)).
  assert (Hread : f_read (mkHandle p pos) bs w = (Ok (chunk, mkHandle p (pos + length chunk)), w1)).
  { destruct w as [fs t fl cl so dr]. cbn in Hf, Hq. subst fl chunk.
    se_unfold. cbn. rewrite Hf. reflexivity. }
  rewrite (run_bind_ok _ _ _ _ _ Hread). cbn [fst snd].
  assert (Hlen : length chunk = Nat.min bs (length (f_data f) - pos)).
  { subst chunk. rewrite length_take, length_drop. reflexivity. }
  assert (Hsplit : drop pos (f_data f) = chunk ++ drop (pos + length chunk) (f_data f)).
  { subst chunk. rewrite <- (take_drop bs (drop pos (f_data f))) at 1.
    rewrite drop_drop. f_equal.
    destruct (Nat.min_spec bs (length (f_data f) - pos)) as [[_ Hm]|[Hle Hm]];
      rewrite Hm in Hlen; rewrite Hlen; [reflexivity|].
    rewrite !drop_ge by lia. reflexivity. }
  destruct chunk as [|x chunk'].
  - exists w1. split; [|repeat split; reflexivity].
    rewrite Hsplit. cbn [length] in *.
    rewrite drop_ge by lia. rewrite !app_nil_r. reflexivity.
  - cbn [length] in Hlen.
    destruct (IH (pos + length (x :: chunk'))%nat (a ++ x :: chunk') (b ++ x :: chunk')
                 (c ++ x :: chunk') w1 Hf eq_refl) as (w' & Hrun & Hfs & Hq' & Hso);
      [cbn [length]; lia|].
    exists w'. split; [|repeat split; assumption].
    rewrite Hrun, Hsplit, <- !app_assoc. reflexivity.
Qed.

(** The function in terms of what its read loop does. *)
Lemma calculate_file_hashes_run (H : Hashlib) (fp : string) (bs : nat) (w : World) :
  calculate_file_hashes H fp bs w =
    match with_open fp "rb" (fun f => n ← remaining f; read_chunks (S n) bs f [] [] []) w with
    | (Ok d, w') =>
        (Ok [(KStr "MD5", VStr (hexlify (md5_digest H (fst (fst d)))));
             (KStr "SHA-1", VStr (hexlify (sha1_digest H (snd (fst d)))));
             (KStr "SHA-256", VStr (hexlify (sha256_digest H (snd d))))], w')
    | (Raise e, w') =>
        (Ok [(KStr "Error", VStr ("Could not calculate hashes: " +:+ exn_str e))], w')
    end.
Proof.
  unfold calculate_file_hashes, with_local, try_except, except_Exception, io, assign, local.
  unfold mbind, se_mbind, se_bind. cbn [fst snd].
  destruct (with_open fp "rb" _ w) as [[d|e] w']; reflexivity.
Qed.

Lemma with_open_read_chunks (bs : nat) (fp : string) (w : World) (f : File) :
  files w !! fp = Some f -> faults w = [] -> (0 < bs)%nat ->
  exists w' : World,
    with_open fp "rb" (fun f0 => n ← remaining f0; read_chunks (S n) bs f0 [] [] []) w
    = (Ok (f_data f, f_data f, f_data f), w').
Proof.
  intros Hf Hq Hbs.
  set (w1 := mkWorld (files w) (now w + 1) [] (calls w ++ [SysOpen fp "rb"])
                     (stdout w) (draws w)).
  destruct (read_chunks_enough bs fp f Hbs (S (length (f_data f) - 0)) 0 [] [] [] w1
              Hf eq_refl) as (w' & Hloop & _); [lia|].
  rewrite drop_0 in Hloop. cbn [app] in Hloop.
  exists (snd (close (mkHandle fp 0) w')).
  destruct w as [fs t fl cl so dr]. cbn in Hf, Hq. subst fl.
  unfold with_open, open_, fallible, enter, record_call, next_fault, lookup_file,
    finally, remaining, se_get.
  unfold mbind, se_mbind, se_bind, mret, se_mret, se_ret.
  cbn -[read_chunks close]. rewrite Hf. cbn -[read_chunks close].
  rewrite Hf. cbn -[read_chunks close].
  unfold w1 in Hloop. cbn [files now calls stdout draws] in Hloop.
  rewrite Hloop. reflexivity.
Qed.

(** C3: the digest report is either the three entries MD5, SHA-1, SHA-256,
    lower-case hexadecimal strings of 32, 40 and 64 characters, or the single
    entry [Error]; and on a machine without faults a present file, read in
    chunks of any positive size, gets the three digests of its whole content. *)
Theorem C3_digests_all_or_error (H : Hashlib) (fp : string) (bs : nat) (w : World) :
  hashlib_sizes H ->
  let h := fst (calculate_file_hashes H fp bs w) in
  ((exists a b c : pykey * pyval,
       h = Ok [a; b; c] /\
       hex_entry "MD5" 32 a /\ hex_entry "SHA-1" 40 b /\ hex_entry "SHA-256" 64 c)
   \/ (exists msg : string, h = Ok [(KStr "Error", VStr msg)]))
  /\ (forall f : File,
        files w !! fp = Some f -> faults w = [] -> (0 < bs)%nat ->
        h = Ok (digest_report H (f_data f))).
Proof.
  intros (Hmd5 & Hsha1 & Hsha256) h. subst h.
  rewrite calculate_file_hashes_run. split.
  - destruct (with_open fp "rb" _ w) as [[d|e] w']; cbn [fst].
    + left. eexists _, _, _. split; [reflexivity|].
      split; [|split].
      * apply (hex_entry_digest "MD5" _ 16), Hmd5.
      * apply (hex_entry_digest "SHA-1" _ 20), Hsha1.
      * apply (hex_entry_digest "SHA-256" _ 32), Hsha256.
    + right. eexists. reflexivity.
  - intros f Hf Hq Hbs.
    destruct (with_open_read_chunks bs fp w f Hf Hq Hbs) as (w' & ->). reflexivity.
Qed.

(** ** Stepping through system calls under any plan of faults *)

Lemma fallible_run (c : syscall) (p : string) (w : World) :
  fallible c p w =
    match planned w with
    | Some _ => (Raise (io_error "Input/output error" p), tick c w)
    | None => (Ok tt, tick c w)
    end.
Proof.
  unfold fallible, enter, record_call, next_fault, planned, tick, se_raise.
  unfold mbind, se_mbind, se_bind, mret, se_mret, se_ret. cbn.
  destruct (default None (head (faults w))); reflexivity.
Qed.

Lemma os_path_getsize_run (p : string) (w : World) :
  os_path_getsize p w =
    match planned w with
    | Some _ => (Raise (io_error "Input/output error" p), tick (SysGetsize p) w)
    | None =>
        match files w !! p with
        | Some f => (Ok (length (f_data f)), tick (SysGetsize p) w)
        | None => (Raise (io_error "No such file or directory" p), tick (SysGetsize p) w)
        end
    end.
Proof.
  unfold os_path_getsize. rewrite run_bind, fallible_run.
  destruct (planned w); [reflexivity|].
  unfold lookup_file, mbind, se_mbind, se_bind, mret, se_mret, se_ret. cbn [files tick].
  destruct (files w !! p); reflexivity.
Qed.

Lemma open_existing_run (p mode : string) (w : World) :
  String.eqb mode "wb" = false ->
  open_ p mode w =
    match planned w with
    | Some _ => (Raise (io_error "Input/output error" p), tick (SysOpen p mode) w)
    | None =>
        match files w !! p with
        | Some _ => (Ok (mkHandle p 0), tick (SysOpen p mode) w)
        | None => (Raise (io_error "No such file or directory" p), tick (SysOpen p mode) w)
        end
    end.
Proof.
  intros Hmode. unfold open_. rewrite run_bind, fallible_run, Hmode.
  destruct (planned w); [reflexivity|].
  unfold lookup_file, mbind, se_mbind, se_bind, mret, se_mret, se_ret. cbn [files tick].
  destruct (files w !! p); reflexivity.
Qed.

Lemma open_wb_run (p : string) (w : World) :
  open_ p "wb" w =
    match planned w with
    | Some _ => (Raise (io_error "Input/output error" p), tick (SysOpen p "wb") w)
    | None =>
        (Ok (mkHandle p 0),
         with_files (<[p := mkFile [] (now w + 1)]> (files w)) (tick (SysOpen p "wb") w))
    end.
Proof.
  unfold open_. rewrite run_bind, fallible_run.
  destruct (planned w); reflexivity.
Qed.

Lemma f_seek_run (h : handle) (pos : nat) (w : World) :
  f_seek h pos w =
    match planned w with
    | Some _ => (Raise (io_error "Input/output error" (h_path h)), tick (SysSeek (h_path h) pos) w)
    | None => (Ok (mkHandle (h_path h) pos), tick (SysSeek (h_path h) pos) w)
    end.
Proof.
  unfold f_seek. rewrite run_bind, fallible_run. destruct (planned w); reflexivity.
Qed.

Lemma f_flush_run (h : handle) (w : World) :
  f_flush h w =
    match planned w with
    | Some _ => (Raise (io_error "Input/output error" (h_path h)), tick (SysFlush (h_path h)) w)
    | None => (Ok tt, tick (SysFlush (h_path h)) w)
    end.
Proof. apply fallible_run. Qed.

Lemma os_fsync_run (h : handle) (w : World) :
  os_fsync h w =
    match planned w with
    | Some _ => (Raise (io_error "Input/output error" (h_path h)), tick (SysFsync (h_path h)) w)
    | None => (Ok tt, tick (SysFsync (h_path h)) w)
    end.
Proof. apply fallible_run. Qed.

Lemma f_write_run (h : handle) (data : bytes) (w : World) (f : File) :
  files w !! h_path h = Some f ->
  f_write h data w =
    let w1 := tick (SysWrite (h_path h) data) w in
    match planned w with
    | Some k =>
        (Raise (io_error "Input/output error" (h_path h)),
         stored (h_path h) (h_pos h) (take k data) f w1)
    | None =>
        (Ok (mkHandle (h_path h) (h_pos h + length data)),
         stored (h_path h) (h_pos h) data f w1)
    end.
Proof.
  intros Hf. unfold f_write, enter, record_call, next_fault, store, lookup_file, update_files,
    set_files, planned, tick, stored, with_files, se_raise.
  unfold mbind, se_mbind, se_bind, mret, se_mret, se_ret.
  cbn [files now faults calls stdout draws fst snd].
  destruct (default None (head (faults w))); cbn [files]; rewrite Hf; reflexivity.
Qed.

Lemma os_remove_run (p : string) (w : World) :
  os_remove p w =
    match planned w with
    | Some _ => (Raise (io_error "Input/output error" p), tick (SysRemove p) w)
    | None =>
        match files w !! p with
        | Some _ => (Ok tt, with_files (delete p (files w)) (tick (SysRemove p) w))
        | None => (Raise (io_error "No such file or directory" p), tick (SysRemove p) w)
        end
    end.
Proof.
  unfold os_remove. rewrite run_bind, fallible_run.
  destruct (planned w); [reflexivity|].
  unfold lookup_file, update_files, set_files, with_files,
    mbind, se_mbind, se_bind, mret, se_mret, se_ret.
  cbn [files tick]. destruct (files w !! p); reflexivity.
Qed.

Lemma os_replace_run (src dst : string) (w : World) :
  os_replace src dst w =
    match planned w with
    | Some _ => (Raise (io_error "Input/output error" src), tick (SysReplace src dst) w)
    | None =>
        match files w !! src with
        | Some f => (Ok tt, with_files (<[dst := f]> (delete src (files w)))
                                       (tick (SysReplace src dst) w))
        | None => (Raise (io_error "No such file or directory" src),
                   tick (SysReplace src dst) w)
        end
    end.
Proof.
  unfold os_replace. rewrite run_bind, fallible_run.
  destruct (planned w); [reflexivity|].
  unfold lookup_file, update_files, set_files, with_files,
    mbind, se_mbind, se_bind, mret, se_mret, se_ret.
  cbn [files tick]. destruct (files w !! src); reflexivity.
Qed.

Lemma f_readall_run (h : handle) (w : World) :
  f_readall h w =
    match planned w with
    | Some _ => (Raise (io_error "Input/output error" (h_path h)), tick (SysRead (h_path h)) w)
    | None =>
        match files w !! h_path h with
        | Some f => (Ok (drop (h_pos h) (f_data f)), tick (SysRead (h_path h)) w)
        | None => (Raise (io_error "No such file or directory" (h_path h)),
                   tick (SysRead (h_path h)) w)
        end
    end.
Proof.
  unfold f_readall. rewrite run_bind, fallible_run.
  destruct (planned w); [reflexivity|].
  unfold lookup_file, mbind, se_mbind, se_bind, mret, se_mret, se_ret. cbn [files tick].
  destruct (files w !! h_path h); reflexivity.
Qed.

Lemma with_open_run {A} (p mode : string) (body : handle -> IO A) (w : World) :
  with_open p mode body w =
    match open_ p mode w with
    | (Ok h, w1) =>
        match body h w1 with
        | (r, w2) => (r, note (SysClose (h_path h)) w2)
        end
    | (Raise e, w1) => (Raise e, w1)
    end.
Proof.
  unfold with_open. rewrite run_bind. destruct (open_ p mode w) as [[h|e] w1]; [|reflexivity].
  unfold finally. destruct (body h w1) as [r w2]. reflexivity.
Qed.

(** ** Secure wipe *)

Lemma overwrite_at_whole (data old : bytes) :
  length data = length old -> overwrite_at 0 data old = data.
Proof.
  intros Hlen. unfold overwrite_at. rewrite take_0, drop_ge by (cbn; lia).
  cbn. apply app_nil_r.
Qed.

Lemma wipe_passes_ok (rt : Runtime) (p : string) (sz : nat) :
  (forall i n, length (urandom rt i n) = n) ->
  forall (range : list nat) (pos : nat) (w : World) (f : File) (h' : handle) (w' : World),
    files w !! p = Some f ->
    length (f_data f) = sz ->
    wipe_passes rt range sz (mkHandle p pos) w = (Ok h', w') ->
    calls w' = calls w ++ wipe_trace rt p sz range (draws w) /\
    delete p (files w') = delete p (files w) /\
    exists f' : File, files w' !! p = Some f' /\ length (f_data f') = sz.
Proof.
  intros Hrand. induction range as [|i range IH]; intros pos w f h' w' Hf Hsz Hrun.
  - cbn in Hrun. injection Hrun as _ <-. rewrite app_nil_r. eauto.
  - cbn [wipe_passes] in Hrun.
    rewrite run_bind, f_seek_run in Hrun. cbn [h_path] in Hrun.
    destruct (planned w); [discriminate|].
    set (w1 := tick (SysSeek p 0) w) in Hrun.
    rewrite run_bind in Hrun.
    set (w2 := if (i =? 1)%nat then w1
               else mkWorld (files w1) (now w1) (faults w1) (calls w1 ++ [SysUrandom sz])
                            (stdout w1) (S (draws w1))).
    assert (Hdata : (if negb (i =? 1)%nat then os_urandom rt sz else mret (replicate sz xff)) w1
                    = (Ok (pass_data rt sz i (draws w)), w2)).
    { unfold pass_data, w2. destruct (i =? 1)%nat; reflexivity. }
    rewrite Hdata in Hrun. clear Hdata.
    assert (Hf2 : files w2 !! p = Some f).
    { unfold w2. destruct (i =? 1)%nat; exact Hf. }
    assert (Hlen : length (pass_data rt sz i (draws w)) = sz).
    { unfold pass_data. destruct (i =? 1)%nat; [apply length_replicate | apply Hrand]. }
    rewrite run_bind in Hrun.
    rewrite (f_write_run (mkHandle p 0) _ w2 f Hf2) in Hrun. cbn [h_path h_pos] in Hrun.
    cbv zeta in Hrun.
    destruct (planned w2); [discriminate|].
    set (w3 := stored p 0 (pass_data rt sz i (draws w)) f
                 (tick (SysWrite p (pass_data rt sz i (draws w))) w2)) in Hrun.
    rewrite run_bind, f_flush_run in Hrun. cbn [h_path] in Hrun.
    destruct (planned w3); [discriminate|].
    rewrite run_bind, os_fsync_run in Hrun. cbn [h_path] in Hrun.
    destruct (planned (tick (SysFlush p) w3)); [discriminate|].
    set (w4 := tick (SysFsync p) (tick (SysFlush p) w3)) in Hrun.
    assert (Hf4 : files w4 !! p
                  = Some (mkFile (overwrite_at 0 (pass_data rt sz i (draws w)) (f_data f))
                                 (now w2 + 1))).
    { cbn [w4 w3 files tick stored with_files now]. apply lookup_insert_eq. }
    rewrite overwrite_at_whole in Hf4 by lia.
    destruct (IH _ w4 _ h' w' Hf4 Hlen Hrun) as (Hcalls & Hdel & Hex).
    split; [|split; [|exact Hex]].
    + rewrite Hcalls. cbn [wipe_trace].
      cbn [w4 w3 calls tick stored with_files draws].
      unfold w2. destruct (i =? 1)%nat; cbn [calls draws w1 tick];
        rewrite <- !app_assoc; reflexivity.
    + rewrite Hdel. cbn [w4 w3 files tick stored with_files].
      rewrite delete_insert_eq. unfold w2. destruct (i =? 1)%nat; reflexivity.
Qed.

Lemma wipe_passes_fault_free (rt : Runtime) (p : string) (sz : nat) :
  forall (range : list nat) (pos : nat) (w : World) (f : File),
    files w !! p = Some f ->
    faults w = [] ->
    exists (h' : handle) (w' : World),
      wipe_passes rt range sz (mkHandle p pos) w = (Ok h', w') /\ faults w' = [] /\
      is_Some (files w' !! p).
Proof.
  induction range as [|i range IH]; intros pos w f Hf Hq.
  - exists (mkHandle p pos), w. split; [reflexivity|]. split; [exact Hq|]. rewrite Hf. eauto.
  - cbn [wipe_passes].
    assert (Hplan : forall v : World, faults v = [] -> planned v = None).
    { intros v Hv. unfold planned. rewrite Hv. reflexivity. }
    rewrite run_bind, f_seek_run, (Hplan w Hq). cbn [h_path].
    set (w1 := tick (SysSeek p 0) w).
    assert (Hq1 : faults w1 = []) by (cbn; rewrite Hq; reflexivity).
    rewrite run_bind.
    set (w2 := if (i =? 1)%nat then w1
               else mkWorld (files w1) (now w1) (faults w1) (calls w1 ++ [SysUrandom sz])
                            (stdout w1) (S (draws w1))).
    assert (Hdata : (if negb (i =? 1)%nat then os_urandom rt sz else mret (replicate sz xff)) w1
                    = (Ok (pass_data rt sz i (draws w)), w2)).
    { unfold pass_data, w2. destruct (i =? 1)%nat; reflexivity. }
    rewrite Hdata. clear Hdata.
    assert (Hf2 : files w2 !! p = Some f) by (unfold w2; destruct (i =? 1)%nat; exact Hf).
    assert (Hq2 : faults w2 = []) by (unfold w2; destruct (i =? 1)%nat; exact Hq1).
    rewrite run_bind, (f_write_run (mkHandle p 0) _ w2 f Hf2). cbn [h_path h_pos]. cbv zeta.
    rewrite (Hplan w2 Hq2).
    set (w3 := stored p 0 (pass_data rt sz i (draws w)) f
                 (tick (SysWrite p (pass_data rt sz i (draws w))) w2)).
    assert (Hq3 : faults w3 = []) by (cbn; rewrite Hq2; reflexivity).
    rewrite run_bind, f_flush_run, (Hplan w3 Hq3). cbn [h_path].
    assert (Hq4 : faults (tick (SysFlush p) w3) = []) by (cbn; rewrite Hq2; reflexivity).
    rewrite run_bind, os_fsync_run, (Hplan _ Hq4). cbn [h_path].
    eapply IH.
    + cbn [w3 files tick stored with_files]. apply lookup_insert_eq.
    + cbn. rewrite Hq2. reflexivity.
Qed.

(** What a successful [secure_wipe_file] has done, whatever the plan of
    faults was. *)
Lemma secure_wipe_file_success (rt : Runtime) (fp : string) (passes : nat) (w : World)
    (f : File) (msg : string) :
  (forall i n, length (urandom rt i n) = n) ->
  files w !! fp = Some f ->
  fst (secure_wipe_file rt fp passes w) = Ok (true, msg) ->
  calls (snd (secure_wipe_file rt fp passes w)) =
    calls w ++ [SysGetsize fp; SysOpen fp "r+b"]
            ++ wipe_trace rt fp (length (f_data f)) (seq 0 passes) (draws w)
            ++ [SysClose fp; SysRemove fp] /\
  files (snd (secure_wipe_file rt fp passes w)) = delete fp (files w).
Proof.
  intros Hrand Hf. unfold secure_wipe_file, try_except, except_Exception.
  rewrite run_bind, os_path_getsize_run.
  destruct (planned w); [cbn; discriminate|].
  cbn [files tick]. rewrite Hf.
  set (w1 := tick (SysGetsize fp) w).
  rewrite run_bind, with_open_run, open_existing_run by reflexivity.
  destruct (planned w1); [cbn; discriminate|].
  cbn [w1 files tick]. rewrite Hf. fold w1.
  set (w2 := tick (SysOpen fp "r+b") w1).
  rewrite run_bind.
  destruct (wipe_passes rt (seq 0 passes) (length (f_data f)) (mkHandle fp 0) w2)
    as [[h'|e] w3] eqn:Hloop; [|cbn; discriminate].
  destruct (wipe_passes_ok rt fp (length (f_data f)) Hrand _ 0%nat w2 f h' w3 Hf eq_refl Hloop)
    as (Hcalls & Hdel & f' & Hf' & _).
  cbn [h_path mret se_mret se_ret].
  rewrite run_bind, os_remove_run.
  destruct (planned (note (SysClose fp) w3)); [cbn; discriminate|].
  cbn [files note]. rewrite Hf'. cbn [fst snd mret se_mret se_ret].
  intros _. cbn [calls files with_files tick note]. split.
  - rewrite Hcalls. cbn [w2 w1 calls tick draws]. rewrite <- !app_assoc. reflexivity.
  - exact Hdel.
Qed.

Lemma secure_wipe_file_fault_free (rt : Runtime) (fp : string) (passes : nat) (w : World)
    (f : File) :
  files w !! fp = Some f ->
  faults w = [] ->
  fst (secure_wipe_file rt fp passes w)
  = Ok (true, "File securely wiped with " +:+ str_nat passes +:+ " passes").
Proof.
  intros Hf Hq. unfold secure_wipe_file, try_except, except_Exception.
  assert (Hplan : forall v : World, faults v = [] -> planned v = None).
  { intros v Hv. unfold planned. rewrite Hv. reflexivity. }
  rewrite run_bind, os_path_getsize_run, (Hplan w Hq). cbn [files tick]. rewrite Hf.
  set (w1 := tick (SysGetsize fp) w).
  assert (Hq1 : faults w1 = []) by (cbn; rewrite Hq; reflexivity).
  rewrite run_bind, with_open_run, open_existing_run, (Hplan w1 Hq1) by reflexivity.
  cbn [w1 files tick]. rewrite Hf. fold w1.
  set (w2 := tick (SysOpen fp "r+b") w1).
  assert (Hq2 : faults w2 = []) by (cbn; rewrite Hq; reflexivity).
  destruct (wipe_passes_fault_free rt fp (length (f_data f)) (seq 0 passes) 0%nat w2 f Hf Hq2)
    as (h' & w3 & Hloop & Hq3 & f' & Hf').
  rewrite run_bind, Hloop. cbn [h_path mret se_mret se_ret].
  rewrite run_bind, os_remove_run, (Hplan (note (SysClose fp) w3) Hq3).
  cbn [files note]. rewrite Hf'. reflexivity.
Qed.

(** C2: with three passes on a file of [N] bytes, a successful secure wipe has
    made exactly these calls, in this order: pass 0 writes the [N] bytes of a
    first [os.urandom] draw, pass 1 writes [N] bytes [0xFF], pass 2 writes the
    [N] bytes of a second draw, each write at offset 0 and followed by a flush
    and an [fsync] before the next pass; then the file is closed and removed,
    and the path is no longer in the filesystem.  Without faults the wipe
    succeeds. *)
Theorem C2_secure_wipe_three_passes (rt : Runtime) (fp : string) (w : World) (f : File) :
  (forall i n, length (urandom rt i n) = n) ->
  files w !! fp = Some f ->
  let N := length (f_data f) in
  let out := secure_wipe_file rt fp 3 w in
  let r0 := urandom rt (draws w) N in
  let r2 := urandom rt (S (draws w)) N in
  (faults w = [] -> fst out = Ok (true, "File securely wiped with 3 passes")) /\
  (forall msg : string,
      fst out = Ok (true, msg) ->
      length r0 = N /\ length r2 = N /\
      calls (snd out) =
        calls w ++
          [SysGetsize fp; SysOpen fp "r+b";
           SysSeek fp 0; SysUrandom N; SysWrite fp r0; SysFlush fp; SysFsync fp;
           SysSeek fp 0; SysWrite fp (replicate N xff); SysFlush fp; SysFsync fp;
           SysSeek fp 0; SysUrandom N; SysWrite fp r2; SysFlush fp; SysFsync fp;
           SysClose fp; SysRemove fp] /\
      files (snd out) = delete fp (files w) /\
      files (snd out) !! fp = None).
Proof.
  intros Hrand Hf N out r0 r2. split.
  - intros Hq. unfold out. rewrite (secure_wipe_file_fault_free rt fp 3 w f Hf Hq).
    reflexivity.
  - intros msg Hok.
    destruct (secure_wipe_file_success rt fp 3 w f msg Hrand Hf Hok) as [Hcalls Hfiles].
    split; [apply Hrand|]. split; [apply Hrand|].
    split; [exact Hcalls|]. split; [exact Hfiles|].
    fold out in Hfiles. rewrite Hfiles. apply lookup_delete_eq.
Qed.

Lemma C2_witness :
  let w := machine [("secret.bin", [x01; x02; x03; x04])] in
  let out := secure_wipe_file demo_rt "secret.bin" 3 w in
  fst out = Ok (true, "File securely wiped with 3 passes") /\
  calls (snd out) =
    [SysGetsize "secret.bin"; SysOpen "secret.bin" "r+b";
     SysSeek "secret.bin" 0; SysUrandom 4; SysWrite "secret.bin" [xa5; xa5; xa5; xa5];
     SysFlush "secret.bin"; SysFsync "secret.bin";
     SysSeek "secret.bin" 0; SysWrite "secret.bin" [xff; xff; xff; xff];
     SysFlush "secret.bin"; SysFsync "secret.bin";
     SysSeek "secret.bin" 0; SysUrandom 4; SysWrite "secret.bin" [x5a; x5a; x5a; x5a];
     SysFlush "secret.bin"; SysFsync "secret.bin";
     SysClose "secret.bin"; SysRemove "secret.bin"] /\
  files (snd out) !! "secret.bin" = None.
Proof.
  intros w out.
  destruct (C2_secure_wipe_three_passes demo_rt "secret.bin" w (mkFile [x01; x02; x03; x04] 0))
    as [Hgo Hdone].
  - intros i n. apply length_replicate.
  - reflexivity.
  - pose proof (Hgo eq_refl) as Hok.
    destruct (Hdone _ Hok) as (_ & _ & Hcalls & _ & Hgone).
    split; [exact Hok|]. split; [exact Hcalls|exact Hgone].
Defined.

(** ** Cleaning requests on unsupported extensions *)

(** C9: a clean-copy or clean-overwrite request on a file whose extension is
    in no cleaning set prints the not-supported notice and returns; it makes no
    system call and leaves the filesystem, contents and modification times
    included, exactly as it was. *)
Theorem C9_unsupported_extension_no_mutation (PIL : option Pillow) (PyPDF2 : option PyPDF2Lib)
    (mutagen : option Mutagen) (rt : Runtime) (fp action : string) (w : World) :
  is_clean_action action ->
  unsupported (lower (Path.suffix (Path.of_string fp))) ->
  let out := perform_cleaning PIL PyPDF2 mutagen rt fp action w in
  fst out = Ok tt /\
  files (snd out) = files w /\
  calls (snd out) = calls w /\
  stdout (snd out) =
    stdout w ++
      [nl +:+ bar; "  CLEANING METADATA"; bar;
       nl +:+ "⚠  Metadata cleaning not supported for "
          +:+ lower (Path.suffix (Path.of_string fp)) +:+ " files";
       bar].
Proof.
  intros Hact Hext out. unfold out.
  rewrite (perform_cleaning_unsupported PIL PyPDF2 mutagen rt fp action w Hact Hext).
  repeat split.
Qed.

Lemma C9_witness :
  let w := machine [("setup.exe", [x4d; x5a; x90])] in
  let out := perform_cleaning (Some demo_PIL) (Some demo_PyPDF2) (Some demo_mutagen) demo_rt
               "setup.exe" "clean_copy" w in
  fst out = Ok tt /\
  files (snd out) = files w /\
  calls (snd out) = calls w /\
  stdout (snd out) =
    [nl +:+ bar; "  CLEANING METADATA"; bar;
     nl +:+ "⚠  Metadata cleaning not supported for .exe files"; bar].
Proof.
  intros w out.
  apply (C9_unsupported_extension_no_mutation (Some demo_PIL) (Some demo_PyPDF2)
           (Some demo_mutagen) demo_rt "setup.exe" "clean_copy" w).
  - left. reflexivity.
  - repeat split.
Defined.

(** C10: a file whose lower-cased extension is [.mp4], [.avi] or [.mkv] is
    sent by [main] to the audio/video tag reader, yet a cleaning request on it
    takes the unsupported path and changes nothing; every audio extension the
    cleaner accepts is one the reader accepts, and not conversely. *)
Theorem C10_video_extractable_not_cleanable (PIL : option Pillow) (PyPDF2 : option PyPDF2Lib)
    (mutagen : option Mutagen) (rt : Runtime) (fp action : string) (w : World) :
  is_clean_action action ->
  In (lower (Path.suffix (Path.of_string fp))) [".mp4"; ".avi"; ".mkv"] ->
  let ext := lower (Path.suffix (Path.of_string fp)) in
  let out := perform_cleaning PIL PyPDF2 mutagen rt fp action w in
  (fst out = Ok tt /\ files (snd out) = files w /\ calls (snd out) = calls w /\
   stdout (snd out) =
     stdout w ++
       [nl +:+ bar; "  CLEANING METADATA"; bar;
        nl +:+ "⚠  Metadata cleaning not supported for " +:+ ext +:+ " files"; bar]) /\
  main_format_metadata PIL PyPDF2 mutagen rt fp w =
    (md ← get_audio_video_metadata mutagen rt fp;
     print_metadata rt md "Audio/Video Metadata") w /\
  str_in ext audio_video_exts = true /\
  str_in ext audio_clean_exts = false /\
  (forall e : string, str_in e audio_clean_exts = true -> str_in e audio_video_exts = true).
Proof.
  intros Hact Hin ext out.
  assert (Hcases : ext = ".mp4" \/ ext = ".avi" \/ ext = ".mkv").
  { cbn [In] in Hin. fold ext in Hin. intuition congruence. }
  assert (Hun : unsupported ext).
  { destruct Hcases as [-> | [-> | ->]]; repeat split. }
  split; [|split; [|split; [|split]]].
  - unfold out.
    rewrite (perform_cleaning_unsupported PIL PyPDF2 mutagen rt fp action w Hact Hun).
    repeat split.
  - unfold main_format_metadata. fold ext.
    destruct Hcases as [-> | [-> | ->]]; reflexivity.
  - destruct Hcases as [-> | [-> | ->]]; reflexivity.
  - destruct Hcases as [-> | [-> | ->]]; reflexivity.
  - intros e He. unfold str_in, audio_clean_exts in He. cbn [existsb] in He.
    repeat (apply orb_prop in He as [He | He];
            [apply String.eqb_eq in He; subst e; reflexivity|]).
    discriminate.
Qed.

Lemma C10_witness :
  let w := machine [("clip.MP4", [x00; x00; x00; x18])] in
  let out := perform_cleaning (Some demo_PIL) (Some demo_PyPDF2) (Some demo_mutagen) demo_rt
               "clip.MP4" "clean_overwrite" w in
  files (snd out) = files w /\
  main_format_metadata (Some demo_PIL) (Some demo_PyPDF2) (Some demo_mutagen) demo_rt
    "clip.MP4" w =
    (md ← get_audio_video_metadata (Some demo_mutagen) demo_rt "clip.MP4";
     print_metadata demo_rt md "Audio/Video Metadata") w.
Proof.
  intros w out.
  destruct (C10_video_extractable_not_cleanable (Some demo_PIL) (Some demo_PyPDF2)
              (Some demo_mutagen) demo_rt "clip.MP4" "clean_overwrite" w)
    as ((_ & Hfiles & _) & Hmain & _).
  - right. reflexivity.
  - left. reflexivity.
  - split; [exact Hfiles|exact Hmain].
Defined.

(** ** The format metadata extractors *)

Lemma dict_get_set (k : pykey) (v : pyval) (d : report) :
  pykey_eqb k k = true -> dict_get k (dict_set k v d) = Some v.
Proof.
  intros Hk. induction d as [|[k' v'] d IH]; cbn [dict_set dict_get].
  - rewrite Hk. reflexivity.
  - destruct (pykey_eqb k k') eqn:E; cbn [dict_get]; rewrite ?Hk, ?E; auto.
Qed.

Lemma for_each_print (lines : list string) :
  forall w : World,
    exists w' : World,
      for_each lines print w = (Ok tt, w') /\ files w' = files w /\ calls w' = calls w.
Proof.
  induction lines as [|l lines IH]; intros w; cbn [for_each].
  - exists w. repeat split.
  - unfold se_bind. rewrite run_print.
    destruct (IH (mkWorld (files w) (now w) (faults w) (calls w) (stdout w ++ [l]) (draws w)))
      as (w' & -> & Hf & Hc).
    exists w'. repeat split; assumption.
Qed.

Lemma print_metadata_ok (rt : Runtime) (md : report) (title : string) (w : World) :
  exists w' : World,
    print_metadata rt md title w = (Ok tt, w') /\ files w' = files w /\ calls w' = calls w.
Proof.
  unfold print_metadata. destruct md as [|kv md].
  - exists w. repeat split.
  - apply for_each_print.
Qed.

(** The extractors in terms of what their [try] blocks do. *)
Lemma get_image_exif_metadata_run (pil : Pillow) (rt : Runtime) (fp : string) (w : World) :
  get_image_exif_metadata (Some pil) rt fp w =
    match image_exif_try rt pil fp (w, []) with
    | (Ok r, s) => (Ok r, fst s)
    | (Raise e, s) =>
        (Ok (if is_IOError e then None
             else Some [(KStr "Error", VStr ("EXIF extraction error: " +:+ exn_str e))]),
         fst s)
    end.
Proof.
  unfold get_image_exif_metadata, with_local, try_except, image_exif_except.
  destruct (image_exif_try rt pil fp (w, [])) as [[r|e] s]; [reflexivity|].
  destruct (is_IOError e); reflexivity.
Qed.

Lemma get_pdf_metadata_run (lib : PyPDF2Lib) (fp : string) (w : World) :
  get_pdf_metadata (Some lib) fp w =
    match pdf_metadata_try lib fp (w, []) with
    | (Ok _, s) => (Ok (snd s), fst s)
    | (Raise e, s) =>
        (Ok (dict_set "Error" (VStr ("PDF extraction error: " +:+ exn_str e)) (snd s)), fst s)
    end.
Proof.
  unfold get_pdf_metadata, with_local, try_except, pdf_metadata_except, assign, local.
  unfold mbind, se_mbind, se_bind.
  destruct (pdf_metadata_try lib fp (w, [])) as [[r|e] s]; reflexivity.
Qed.

Lemma get_audio_video_metadata_run (lib : Mutagen) (rt : Runtime) (fp : string) (w : World) :
  get_audio_video_metadata (Some lib) rt fp w =
    match audio_video_try rt lib fp (w, []) with
    | (Ok (Some r), s) => (Ok r, fst s)
    | (Ok None, s) => (Ok (snd s), fst s)
    | (Raise e, s) =>
        (Ok (dict_set "Error" (VStr ("Audio/video extraction error: " +:+ exn_str e)) (snd s)),
         fst s)
    end.
Proof.
  unfold get_audio_video_metadata, with_local, try_except, audio_video_except, assign, local.
  unfold mbind, se_mbind, se_bind, mret, se_mret, se_ret.
  destruct (audio_video_try rt lib fp (w, [])) as [[[r|]|e] s]; reflexivity.
Qed.

Lemma get_image_exif_metadata_returns PIL rt fp w :
  exists r, fst (get_image_exif_metadata PIL rt fp w) = Ok r.
Proof.
  destruct PIL as [pil|]; [|eexists; reflexivity].
  rewrite get_image_exif_metadata_run.
  destruct (image_exif_try rt pil fp (w, [])) as [[r|e] s]; eexists; reflexivity.
Qed.

Lemma get_pdf_metadata_returns PyPDF2 fp w :
  exists r, fst (get_pdf_metadata PyPDF2 fp w) = Ok r.
Proof.
  destruct PyPDF2 as [lib|]; [|eexists; reflexivity].
  rewrite get_pdf_metadata_run.
  destruct (pdf_metadata_try lib fp (w, [])) as [[r|e] s]; eexists; reflexivity.
Qed.

Lemma get_audio_video_metadata_returns mutagen rt fp w :
  exists r, fst (get_audio_video_metadata mutagen rt fp w) = Ok r.
Proof.
  destruct mutagen as [lib|]; [|eexists; reflexivity].
  rewrite get_audio_video_metadata_run.
  destruct (audio_video_try rt lib fp (w, [])) as [[[r|]|e] s]; eexists; reflexivity.
Qed.

Lemma main_format_metadata_returns PIL PyPDF2 mutagen rt fp w :
  fst (main_format_metadata PIL PyPDF2 mutagen rt fp w) = Ok tt.
Proof.
  unfold main_format_metadata.
  destruct (str_in _ image_exts && PIL_AVAILABLE PIL).
  - rewrite run_bind.
    destruct (get_image_exif_metadata_returns PIL rt fp w) as (r & Hr).
    destruct (get_image_exif_metadata PIL rt fp w) as [r' w']. cbn [fst] in Hr. subst r'.
    destruct r as [[|kv md]|]; try reflexivity. cbn beta iota.
    destruct (print_metadata_ok rt (kv :: md) "Image Metadata (EXIF)" w') as (w'' & -> & _).
    reflexivity.
  - destruct (String.eqb _ ".pdf").
    + rewrite run_bind.
      destruct (get_pdf_metadata_returns PyPDF2 fp w) as (r & Hr).
      destruct (get_pdf_metadata PyPDF2 fp w) as [r' w']. cbn [fst] in Hr. subst r'. cbn beta iota.
      destruct (print_metadata_ok rt r "PDF Metadata" w') as (w'' & -> & _). reflexivity.
    + destruct (str_in _ audio_video_exts); [|reflexivity].
      rewrite run_bind.
      destruct (get_audio_video_metadata_returns mutagen rt fp w) as (r & Hr).
      destruct (get_audio_video_metadata mutagen rt fp w) as [r' w']. cbn [fst] in Hr. subst r'. cbn beta iota.
      destruct (print_metadata_ok rt r "Audio/Video Metadata" w') as (w'' & -> & _).
      reflexivity.
Qed.

(** *** Triples on the local dictionary

    [triple Q c N X]: started with a local dictionary satisfying [Q], the
    block [c] ends normally with a value [a] and a dictionary satisfying
    [N a], or raises with a dictionary satisfying [X]. *)

Lemma triple_bind {A B} (Q : report -> Prop) (c : SE (World * report) A)
    (k : A -> SE (World * report) B) (M : A -> report -> Prop)
    (N : B -> report -> Prop) (X : report -> Prop) :
  triple Q c M X -> (forall a, triple (M a) (k a) N X) -> triple Q (c ≫= k) N X.
Proof.
  intros Hc Hk s Hs. rewrite run_bind. specialize (Hc s Hs).
  destruct (c s) as [[a|e] s']; [apply Hk; exact Hc | exact Hc].
Qed.

Lemma triple_weaken {A} (Q Q' : report -> Prop) (c : SE (World * report) A)
    (N N' : A -> report -> Prop) (X X' : report -> Prop) :
  triple Q c N X ->
  (forall m, Q' m -> Q m) -> (forall a m, N a m -> N' a m) -> (forall m, X m -> X' m) ->
  triple Q' c N' X'.
Proof.
  intros Hc HQ HN HX s Hs. specialize (Hc s (HQ _ Hs)).
  destruct (c s) as [[a|e] s']; auto.
Qed.

Lemma triple_pre {A} (Q Q' : report -> Prop) (c : SE (World * report) A)
    (N : A -> report -> Prop) (X : report -> Prop) :
  triple Q c N X -> (forall m, Q' m -> Q m) -> triple Q' c N X.
Proof. intros Hc HQ. apply (triple_weaken Q Q' c N N X X Hc); auto. Qed.

Lemma triple_post {A} (Q : report -> Prop) (c : SE (World * report) A)
    (N N' : A -> report -> Prop) (X : report -> Prop) :
  triple Q c N X -> (forall a m, N a m -> N' a m) -> triple Q c N' X.
Proof. intros Hc HN. apply (triple_weaken Q Q c N N' X X Hc); auto. Qed.

Lemma triple_io {A} (Q X : report -> Prop) (c : IO A) :
  (forall m, Q m -> X m) -> triple Q (io c) (fun _ => Q) X.
Proof.
  intros HQX [w m] Hs. unfold io. cbn [fst snd] in *.
  destruct (c w) as [[a|e] w']; cbn [snd]; auto.
Qed.

Lemma triple_lift {A} (Q X : report -> Prop) (r : result A) :
  (forall m, Q m -> X m) -> triple Q (se_lift r) (fun _ => Q) X.
Proof. intros HQX s Hs. unfold se_lift. destruct r; auto. Qed.

Lemma triple_ret {A} (Q : report -> Prop) (a : A) (X : report -> Prop) :
  triple Q (mret a) (fun _ => Q) X.
Proof. intros s Hs. exact Hs. Qed.

Lemma triple_assign (Q : report -> Prop) (f : report -> report) (X : report -> Prop) :
  triple Q (assign f) (fun _ m => exists m0, Q m0 /\ m = f m0) X.
Proof. intros s Hs. cbn. eauto. Qed.

Lemma triple_with_open_in {A} (Q : report -> Prop) (p mode : string)
    (body : handle -> SE (World * report) A) (N : A -> report -> Prop) (X : report -> Prop) :
  (forall m, Q m -> X m) ->
  (forall h, triple Q (body h) N X) ->
  triple Q (with_open_in p mode body) N X.
Proof.
  intros HQX Hbody. unfold with_open_in.
  apply (triple_bind Q _ _ (fun _ => Q)).
  - apply triple_io. exact HQX.
  - intros h s Hs. unfold finally_in. specialize (Hbody h s Hs).
    destruct (body h s) as [[a|e] s']; exact Hbody.
Qed.

Lemma pdf_metadata_try_triple (lib : PyPDF2Lib) (fp : string) :
  triple (fun m => m = []) (pdf_metadata_try lib fp) (fun _ _ => True) pdf_partial.
Proof.
  assert (Hnil : forall m : report, m = [] -> pdf_partial m) by (intros m ->; left; reflexivity).
  unfold pdf_metadata_try.
  apply triple_with_open_in; [exact Hnil|]. intros h.
  eapply triple_bind; [apply triple_io, Hnil|]. intros data.
  eapply triple_bind; [apply triple_lift, Hnil|]. intros pdf.
  eapply triple_bind; [apply triple_lift, Hnil|]. intros pages.
  eapply triple_bind; [apply triple_lift, Hnil|]. intros enc.
  eapply triple_bind; [apply triple_assign|]. intros u1.
  eapply triple_bind; [apply triple_assign|]. intros u2.
  set (Q := fun m : report =>
              m = [(KStr "Number of Pages", VInt (Z.of_nat (length pages)));
                   (KStr "Encrypted", VBool enc)]).
  assert (HQ : forall m : report, Q m -> pdf_partial m) by (intros m ->; right; eauto).
  apply (triple_pre Q).
  2:{ intros m (m1 & (m0 & H0 & H1) & H2). subst. reflexivity. }
  eapply triple_bind; [apply triple_lift, HQ|]. intros md.
  destruct (has_items md).
  - eapply triple_bind; [apply triple_lift, HQ|]. intros md'.
    eapply triple_post; [apply (triple_assign Q _ pdf_partial)|]. auto.
  - eapply triple_post; [apply (triple_ret Q _ pdf_partial)|]. auto.
Qed.

(** C5 (as the code has it): each extractor returns a value and never raises,
    so the extractor step of [main] always completes.  Without its library an
    extractor returns the single [Note] entry.  When its [try] block raises,
    the image extractor returns no report ([None]) for an [IOError] and the
    single [Error] entry for any other exception; the PDF extractor returns
    the fields gathered so far, none or the page count and encryption flag,
    with the [Error] entry set; the audio/video extractor returns the fields
    gathered so far with the [Error] entry set. *)
Theorem C5_extractors_contain_failures (PIL : option Pillow) (PyPDF2 : option PyPDF2Lib)
    (mutagen : option Mutagen) (rt : Runtime) (fp : string) (w : World) :
  ((exists r, fst (get_image_exif_metadata PIL rt fp w) = Ok r) /\
   (exists r, fst (get_pdf_metadata PyPDF2 fp w) = Ok r) /\
   (exists r, fst (get_audio_video_metadata mutagen rt fp w) = Ok r) /\
   fst (main_format_metadata PIL PyPDF2 mutagen rt fp w) = Ok tt) /\
  ((PIL = None -> get_image_exif_metadata PIL rt fp w = (Ok (Some pillow_note), w)) /\
   (PyPDF2 = None -> get_pdf_metadata PyPDF2 fp w = (Ok pypdf2_note, w)) /\
   (mutagen = None -> get_audio_video_metadata mutagen rt fp w = (Ok mutagen_note, w))) /\
  ((forall pil e s,
       PIL = Some pil -> image_exif_try rt pil fp (w, []) = (Raise e, s) ->
       fst (get_image_exif_metadata PIL rt fp w) =
         Ok (if is_IOError e then None
             else Some [(KStr "Error", VStr ("EXIF extraction error: " +:+ exn_str e))])) /\
   (forall lib e s,
       PyPDF2 = Some lib -> pdf_metadata_try lib fp (w, []) = (Raise e, s) ->
       pdf_partial (snd s) /\
       fst (get_pdf_metadata PyPDF2 fp w) =
         Ok (dict_set "Error" (VStr ("PDF extraction error: " +:+ exn_str e)) (snd s))) /\
   (forall lib e s,
       mutagen = Some lib -> audio_video_try rt lib fp (w, []) = (Raise e, s) ->
       fst (get_audio_video_metadata mutagen rt fp w) =
         Ok (dict_set "Error" (VStr ("Audio/video extraction error: " +:+ exn_str e))
                      (snd s)))).
Proof.
  split; [|split].
  - split; [apply get_image_exif_metadata_returns|].
    split; [apply get_pdf_metadata_returns|].
    split; [apply get_audio_video_metadata_returns|].
    apply main_format_metadata_returns.
  - repeat split; intros ->; reflexivity.
  - split; [|split].
    + intros pil e s -> Hraise. rewrite get_image_exif_metadata_run, Hraise. reflexivity.
    + intros lib e s -> Hraise. split.
      * pose proof (pdf_metadata_try_triple lib fp (w, []) eq_refl) as Ht.
        rewrite Hraise in Ht. exact Ht.
      * rewrite get_pdf_metadata_run, Hraise. reflexivity.
    + intros lib e s -> Hraise. rewrite get_audio_video_metadata_run, Hraise. reflexivity.
Qed.

(** C5 as stated fails: a file that Pillow cannot open makes the image
    extractor's [try] block raise, and the extractor answers [None], not an
    [Error] entry; a PDF whose document information cannot be read gets the
    [Error] entry after two ordinary fields. *)
Lemma C5_counterexample :
  let w := machine [("scan.png", [x25; x00; x01]); ("broken.pdf", [x25; xff; x01])] in
  (exists s, image_exif_try demo_rt demo_PIL "scan.png" (w, [])
             = (Raise (mkExn IOError "cannot identify image file"), s)) /\
  fst (get_image_exif_metadata (Some demo_PIL) demo_rt "scan.png" w) = Ok None /\
  ~ (exists msg : string,
        fst (get_image_exif_metadata (Some demo_PIL) demo_rt "scan.png" w)
        = Ok (Some [(KStr "Error", VStr msg)])) /\
  fst (get_pdf_metadata (Some demo_PyPDF2) "broken.pdf" w) =
    Ok [(KStr "Number of Pages", VInt 1); (KStr "Encrypted", VBool false);
        (KStr "Error", VStr "PDF extraction error: cannot resolve /Info")].
Proof.
  intros w. split; [|split; [|split]].
  - eexists. vm_compute. reflexivity.
  - vm_compute. reflexivity.
  - intros [msg Hmsg]. vm_compute in Hmsg. discriminate.
  - vm_compute. reflexivity.
Qed.

Lemma C5_witness :
  let w := machine [("broken.pdf", [x25; xff; x01])] in
  fst (get_pdf_metadata (Some demo_PyPDF2) "broken.pdf" w) =
    Ok [(KStr "Number of Pages", VInt 1); (KStr "Encrypted", VBool false);
        (KStr "Error", VStr "PDF extraction error: cannot resolve /Info")] /\
  get_image_exif_metadata None demo_rt "broken.pdf" w = (Ok (Some pillow_note), w).
Proof.
  intros w.
  destruct (C5_extractors_contain_failures None (Some demo_PyPDF2) (Some demo_mutagen) demo_rt
              "broken.pdf" w) as (_ & (Hnote & _) & (_ & Hpdf & _)).
  split.
  - pose (s := snd (pdf_metadata_try demo_PyPDF2 "broken.pdf" (w, []))).
    assert (Hraise : pdf_metadata_try demo_PyPDF2 "broken.pdf" (w, [])
                     = (Raise (mkExn OtherError "cannot resolve /Info"), s))
      by (vm_compute; reflexivity).
    pose proof (proj2 (Hpdf demo_PyPDF2 _ s eq_refl Hraise)) as Hres.
    rewrite Hres. vm_compute. reflexivity.
  - exact (Hnote eq_refl).
Defined.

(** ** The claims on the concrete installation *)

Lemma C3_witness :
  let w := machine [("notes.txt", [x68; x65; x6c; x6c; x6f])] in
  fst (calculate_file_hashes demo_hashlib "notes.txt" 2 w) =
    Ok (digest_report demo_hashlib [x68; x65; x6c; x6c; x6f]).
Proof.
  intros w.
  destruct (C3_digests_all_or_error demo_hashlib "notes.txt" 2 w) as [_ Hall].
  - repeat split; intros d; apply length_replicate.
  - apply (Hall (mkFile [x68; x65; x6c; x6c; x6f] 0)); [reflexivity|reflexivity|lia].
Defined.

Lemma C6_witness :
  let w := machine [("zeros.bin", [x00; x00; x00; x00; x00; x00])] in
  fst (analyze_file_entropy demo_rt "zeros.bin" 4096 w) =
    Ok [(KStr "Entropy", VStr (fmt_4f demo_rt (PrimFloat.opp 0%float) +:+ " bits/byte"));
        (KStr "Analysis", VStr "Low entropy - likely plain text or repetitive data")].
Proof.
  intros w.
  apply (C6_repeated_byte_entropy demo_rt "zeros.bin" 4096 w
           (mkFile [x00; x00; x00; x00; x00; x00] 0) x00 6).
  - reflexivity.
  - reflexivity.
  - reflexivity.
  - reflexivity.
  - lia.
  - lia.
Defined.

Lemma C7_witness :
  let w := machine [("empty.dat", [])] in
  fst (analyze_file_entropy demo_rt "empty.dat" 4096 w) = Ok empty_file_sentinel.
Proof.
  intros w.
  apply (C7_empty_file_sentinel demo_rt "empty.dat" 4096 w (mkFile [] 0));
    reflexivity.
Defined.

Lemma C8_witness :
  let w := machine [("shot.txt", [x89; x50; x4e; x47]); ("shot.png", [x89; x50; x4e; x47])] in
  fst (get_file_type_info demo_magic "shot.txt" w) =
    Ok [(KStr "MIME Type", VStr "image/png");
        (KStr "File Type Description", VStr "PNG image data");
        (KStr "⚠ Extension Mismatch", VStr "File is image/png but has .txt extension")] /\
  fst (get_file_type_info demo_magic "shot.png" w) =
    Ok [(KStr "MIME Type", VStr "image/png");
        (KStr "File Type Description", VStr "PNG image data")].
Proof.
  intros w. split.
  - apply (C8_extension_anomaly demo_magic "shot.txt" w (mkFile [x89; x50; x4e; x47] 0)
             "image/png" "PNG image data" [".png"]); reflexivity.
  - apply (C8_extension_anomaly demo_magic "shot.png" w (mkFile [x89; x50; x4e; x47] 0)
             "image/png" "PNG image data" [".png"]); reflexivity.
Defined.

(** ** Clean-overwrite and clean-copy on concrete files *)

(** C1 (what the code does instead): clean-overwrite strips a tagged audio
    file into a second file and leaves the original, tag included, where it
    was, with no rename; on an image it opens the original itself for
    writing, so an encoder error leaves it empty and a write fault leaves it
    with the first bytes of the output.  Only the PDF branch writes a
    temporary file and renames it over the original. *)
Theorem C1_clean_overwrite_not_atomic :
  let audio := demo_clean "song.mp3" "clean_overwrite" (machine demo_files) in
  let jpeg := demo_clean "photo.jpg" "clean_overwrite" (machine demo_files) in
  let png := demo_clean "photo.png" "clean_overwrite"
               (machine_with_faults demo_files [None; None; None; Some 2%nat]) in
  let pdf := demo_clean "doc.pdf" "clean_overwrite" (machine demo_files) in
  (content audio "song.mp3" = Some [x49; x07; x01; x02; x03] /\
   content audio "song.mp3.cleaned.mp3" = Some [x01; x02; x03] /\
   calls audio =
     [SysCopy2 "song.mp3" "song.mp3.cleaned.mp3";
      SysOpen "song.mp3.cleaned.mp3" "rb"; SysRead "song.mp3.cleaned.mp3";
      SysClose "song.mp3.cleaned.mp3";
      SysOpen "song.mp3.cleaned.mp3" "rb"; SysRead "song.mp3.cleaned.mp3";
      SysClose "song.mp3.cleaned.mp3";
      SysOpen "song.mp3.cleaned.mp3" "wb";
      SysWrite "song.mp3.cleaned.mp3" [x01; x02; x03];
      SysClose "song.mp3.cleaned.mp3"]) /\
  (content jpeg "photo.jpg" = Some [] /\
   calls jpeg =
     [SysOpen "photo.jpg" "rb"; SysRead "photo.jpg"; SysClose "photo.jpg";
      SysOpen "photo.jpg" "wb"; SysClose "photo.jpg"]) /\
  (content png "photo.png" = Some [x89; x01] /\
   calls png =
     [SysOpen "photo.png" "rb"; SysRead "photo.png"; SysClose "photo.png";
      SysOpen "photo.png" "wb"; SysWrite "photo.png" [x89; x01; x02; x03];
      SysClose "photo.png"]) /\
  (content pdf "doc.pdf" = Some [x25; x00; x01; x02] /\
   content pdf "doc.pdf.temp.pdf" = None /\
   calls pdf =
     [SysOpen "doc.pdf" "rb"; SysRead "doc.pdf";
      SysOpen "doc.pdf.temp.pdf" "wb"; SysWrite "doc.pdf.temp.pdf" [x25; x00; x01; x02];
      SysClose "doc.pdf.temp.pdf"; SysClose "doc.pdf";
      SysReplace "doc.pdf.temp.pdf" "doc.pdf"]).
Proof. vm_compute. repeat split. Qed.

(** C4 (what the code does instead): clean-copy writes the stripped PDF to
    the original path followed by [.cleaned.pdf], not to the stem followed by
    [.cleaned.pdf]; images and audio files go to stem, [.cleaned] and the
    lower-cased extension.  The original keeps its bytes in each case. *)
Theorem C4_clean_copy_pdf_path :
  let pdf := demo_clean "doc.pdf" "clean_copy" (machine demo_files) in
  let png := demo_clean "photo.png" "clean_copy" (machine demo_files) in
  let mp3 := demo_clean "song.mp3" "clean_copy" (machine demo_files) in
  (cleaned_path "doc.pdf" ".pdf" = Ok "doc.cleaned.pdf" /\
   content pdf "doc.cleaned.pdf" = None /\
   content pdf "doc.pdf.cleaned.pdf" = Some [x25; x00; x01; x02] /\
   content pdf "doc.pdf" = Some [x25; x07; x01; x02]) /\
  (content png "photo.cleaned.png" = Some [x89; x01; x02; x03] /\
   content png "photo.png" = Some [x89; x01; x02; x03]) /\
  (content mp3 "song.cleaned.mp3" = Some [x01; x02; x03] /\
   content mp3 "song.mp3" = Some [x49; x07; x01; x02; x03]).
Proof. vm_compute. repeat split. Qed.

(** ** Which paths a block can change

    [frames ps c]: whatever the block [c] does, every path outside [ps] holds
    afterwards what it held before. *)

Lemma frames_same {A} (ps : list string) (c : IO A) :
  (forall w, files (snd (c w)) = files w) -> frames ps c.
Proof. intros H w q _. rewrite H. reflexivity. Qed.

Lemma frames_bind {A B} (ps : list string) (c : IO A) (k : A -> IO B) :
  frames ps c -> (forall a, frames ps (k a)) -> frames ps (c ≫= k).
Proof.
  intros Hc Hk w q Hq. rewrite run_bind. specialize (Hc w q Hq).
  destruct (c w) as [[a|e] w']; cbn [snd] in *; [|exact Hc].
  rewrite (Hk a w' q Hq). exact Hc.
Qed.

Lemma frames_ret {A} (ps : list string) (a : A) : frames ps (mret a : IO A).
Proof. apply frames_same. reflexivity. Qed.

Lemma frames_raise {A} (ps : list string) (e : exn) : frames ps (se_raise e : IO A).
Proof. apply frames_same. reflexivity. Qed.

Lemma frames_lift {A} (ps : list string) (r : result A) : frames ps (se_lift r : IO A).
Proof. apply frames_same. reflexivity. Qed.

Lemma frames_print (ps : list string) (s : string) : frames ps (print s).
Proof. apply frames_same. reflexivity. Qed.

Lemma frames_fallible (ps : list string) (c : syscall) (p : string) : frames ps (fallible c p).
Proof.
  apply frames_same. intros w. rewrite fallible_run. destruct (planned w); reflexivity.
Qed.

Lemma frames_enter (ps : list string) (c : syscall) : frames ps (enter c).
Proof. apply frames_same. reflexivity. Qed.

Lemma frames_lookup_file (ps : list string) (p : string) : frames ps (lookup_file p).
Proof.
  apply frames_same. intros w. unfold lookup_file. destruct (files w !! p); reflexivity.
Qed.

Lemma frames_update (ps : list string) (p : string) (f : World -> File) :
  p ∈ ps -> frames ps (update_files (fun w => <[p := f w]> (files w))).
Proof.
  intros Hp w q Hq. cbn. apply lookup_insert_ne. intros ->. contradiction.
Qed.

Lemma frames_close (ps : list string) (h : handle) : frames ps (close h).
Proof. apply frames_same. reflexivity. Qed.

Lemma frames_finally {A} (ps : list string) (body : IO A) (cleanup : IO unit) :
  frames ps body -> frames ps cleanup -> frames ps (finally body cleanup).
Proof.
  intros Hb Hc w q Hq. unfold finally. specialize (Hb w q Hq).
  destruct (body w) as [r w']. cbn [snd] in *. rewrite (Hc w' q Hq). exact Hb.
Qed.

Lemma frames_try_except {A} (ps : list string) (body : IO A) (handler : exn -> option (IO A)) :
  frames ps body ->
  (forall e h, handler e = Some h -> frames ps h) ->
  frames ps (try_except body handler).
Proof.
  intros Hb Hh w q Hq. unfold try_except. specialize (Hb w q Hq).
  destruct (body w) as [[a|e] w']; cbn [snd] in *; [exact Hb|].
  destruct (handler e) as [h|] eqn:E; [|exact Hb].
  rewrite (Hh e h E w' q Hq). exact Hb.
Qed.

Lemma frames_open (ps : list string) (p mode : string) :
  (String.eqb mode "wb" = true -> p ∈ ps) -> frames ps (open_ p mode).
Proof.
  intros Hp. unfold open_.
  apply frames_bind; [apply frames_fallible|]. intros _.
  apply frames_bind; [|intros _; apply frames_ret].
  destruct (String.eqb mode "wb").
  - apply (frames_update ps p (fun w => mkFile [] (now w))). auto.
  - apply frames_bind; [apply frames_lookup_file|]. intros _. apply frames_ret.
Qed.

Lemma frames_with_open {A} (ps : list string) (p mode : string) (body : handle -> IO A) :
  (String.eqb mode "wb" = true -> p ∈ ps) ->
  frames ps (body (mkHandle p 0)) ->
  frames ps (with_open p mode body).
Proof.
  intros Hp Hbody w q Hq. rewrite with_open_run.
  pose proof (frames_open ps p mode Hp w q Hq) as Hopen.
  assert (Hh : forall h w1, open_ p mode w = (Ok h, w1) -> h = mkHandle p 0).
  { intros h w1. unfold open_. rewrite run_bind, fallible_run.
    destruct (planned w); [discriminate|]. rewrite run_bind.
    match goal with |- context [match ?c ?v with _ => _ end] => destruct (c v) as [[u|e] w2] end;
      [|discriminate].
    cbn. intros [= <- _]. reflexivity. }
  destruct (open_ p mode w) as [[h|e] w1]; cbn [snd] in *; [|exact Hopen].
  rewrite (Hh h w1 eq_refl). specialize (Hbody w1 q Hq).
  destruct (body (mkHandle p 0) w1) as [r w2]. cbn [snd h_path files note] in *.
  rewrite Hbody. exact Hopen.
Qed.

Lemma frames_f_readall (ps : list string) (h : handle) : frames ps (f_readall h).
Proof.
  unfold f_readall. apply frames_bind; [apply frames_fallible|]. intros _.
  apply frames_bind; [apply frames_lookup_file|]. intros f. apply frames_ret.
Qed.

Lemma frames_read_file (ps : list string) (p : string) : frames ps (read_file p).
Proof.
  unfold read_file. apply frames_with_open; [discriminate|]. apply frames_f_readall.
Qed.

Lemma frames_f_write (ps : list string) (h : handle) (data : bytes) :
  h_path h ∈ ps -> frames ps (f_write h data).
Proof.
  intros Hp. unfold f_write, store.
  apply frames_bind; [apply frames_enter|]. intros [k|].
  - apply frames_bind; [|intros _; apply frames_raise].
    apply frames_bind; [apply frames_lookup_file|]. intros f.
    apply (frames_update ps (h_path h)
             (fun w => mkFile (overwrite_at (h_pos h) (take k data) (f_data f)) (now w)) Hp).
  - apply frames_bind; [|intros _; apply frames_ret].
    apply frames_bind; [apply frames_lookup_file|]. intros f.
    apply (frames_update ps (h_path h)
             (fun w => mkFile (overwrite_at (h_pos h) data (f_data f)) (now w)) Hp).
Qed.

Lemma frames_shutil_copy2 (ps : list string) (src dst : string) :
  dst ∈ ps -> frames ps (shutil_copy2 src dst).
Proof.
  intros Hp. unfold shutil_copy2.
  apply frames_bind; [apply frames_enter|]. intros flt.
  apply frames_bind; [apply frames_lookup_file|]. intros f.
  destruct (String.eqb src dst); [apply frames_raise|].
  destruct flt as [k|].
  - apply frames_bind; [|intros _; apply frames_raise].
    apply (frames_update ps dst (fun w => mkFile (take k (f_data f)) (now w)) Hp).
  - apply (frames_update ps dst (fun w => mkFile (f_data f) (f_mtime f)) Hp).
Qed.

Lemma frames_Image_save (ps : list string) (pil : Pillow) (clean : Bitmap) (op : string) :
  op ∈ ps -> frames ps (Image_save pil clean op).
Proof.
  intros Hp. unfold Image_save. destruct (negb (Image_registered pil op)); [apply frames_raise|].
  apply frames_with_open; [auto|].
  apply frames_bind; [apply frames_lift|]. intros data.
  apply frames_bind; [apply frames_f_write; exact Hp|]. intros _. apply frames_ret.
Qed.

Lemma frames_except_Exception {A} (ps : list string) (k : exn -> IO A) :
  (forall e, frames ps (k e)) ->
  forall e h, except_Exception k e = Some h -> frames ps h.
Proof. intros Hk e h [= <-]. apply Hk. Qed.

(** Each cleaner changes nothing but its output path. *)
Lemma frames_clean_image_metadata (ps : list string) PIL (fp : string) (op : option string) :
  py_or op fp ∈ ps -> frames ps (clean_image_metadata PIL fp op).
Proof.
  intros Hp. unfold clean_image_metadata. destruct PIL as [pil|]; [|apply frames_ret].
  apply frames_try_except; [|apply frames_except_Exception; intros e; apply frames_ret].
  apply frames_bind; [apply frames_read_file|]. intros data.
  apply frames_bind; [apply frames_lift|]. intros img.
  apply frames_bind; [apply frames_lift|]. intros clean.
  apply frames_bind; [apply frames_lift|]. intros pixels.
  apply frames_bind; [apply frames_lift|]. intros clean'.
  apply frames_bind; [apply frames_Image_save; exact Hp|]. intros _. apply frames_ret.
Qed.

Lemma frames_clean_pdf_metadata (ps : list string) PyPDF2 (fp : string) (op : option string) :
  py_or op (fp +:+ ".cleaned.pdf") ∈ ps -> frames ps (clean_pdf_metadata PyPDF2 fp op).
Proof.
  intros Hp. unfold clean_pdf_metadata. destruct PyPDF2 as [lib|]; [|apply frames_ret].
  apply frames_try_except; [|apply frames_except_Exception; intros e; apply frames_ret].
  apply frames_bind; [|intros _; apply frames_ret].
  apply frames_with_open; [discriminate|].
  apply frames_bind; [apply frames_f_readall|]. intros data.
  apply frames_bind; [apply frames_lift|]. intros reader.
  apply frames_bind; [apply frames_lift|]. intros pages.
  apply frames_with_open; [auto|].
  apply frames_bind; [apply frames_lift|]. intros doc.
  apply frames_bind; [apply frames_f_write; exact Hp|]. intros _. apply frames_ret.
Qed.

Lemma frames_clean_audio_metadata (ps : list string) mutagen (fp : string) (op : option string) :
  py_or op (fp +:+ ".cleaned" +:+ Path.suffix (Path.of_string fp)) ∈ ps ->
  frames ps (clean_audio_metadata mutagen fp op).
Proof.
  intros Hp. unfold clean_audio_metadata. destruct mutagen as [lib|]; [|apply frames_ret].
  apply frames_try_except; [|apply frames_except_Exception; intros e; apply frames_ret].
  apply frames_bind; [apply frames_shutil_copy2; exact Hp|]. intros _.
  apply frames_bind; [apply frames_read_file|]. intros data.
  apply frames_bind; [apply frames_lift|]. intros audio.
  match goal with |- context [if ?b then _ else _] => destruct b end; [|apply frames_ret].
  apply frames_bind; [|intros _; apply frames_ret].
  unfold delete_and_save.
  apply frames_bind; [apply frames_read_file|]. intros data'.
  apply frames_bind; [apply frames_lift|]. intros stripped.
  apply frames_with_open; [auto|].
  apply frames_bind; [apply frames_f_write; exact Hp|]. intros _. apply frames_ret.
Qed.

(** The prints around the dispatch change no file. *)
Lemma frames_perform_cleaning (ps : list string) PIL PyPDF2 mutagen rt (fp action : string) :
  is_clean_action action ->
  frames ps (clean_dispatch PIL PyPDF2 mutagen fp action
               (lower (Path.suffix (Path.of_string fp)))) ->
  frames ps (perform_cleaning PIL PyPDF2 mutagen rt fp action).
Proof.
  intros Hact Hd. unfold perform_cleaning.
  destruct Hact as [-> | ->]; cbn [String.eqb Ascii.eqb Bool.eqb str_in existsb orb].
  all: apply frames_bind; [apply frames_print|]; intros _.
  all: apply frames_bind; [apply frames_print|]; intros _.
  all: apply frames_bind; [apply frames_print|]; intros _.
  all: apply frames_bind; [exact Hd|]; intros [[succ msg]|]; [|apply frames_ret].
  all: apply frames_bind; [destruct succ; apply frames_print|]; intros _.
  all: apply frames_print.
Qed.

Lemma str_app_length_ne (a b : string) : b <> "" -> a +:+ b <> a.
Proof.
  intros Hb Heq. apply (f_equal String.length) in Heq.
  rewrite string_length_app in Heq. destruct b; [congruence|]. cbn in Heq. lia.
Qed.

Lemma audio_ext_not_image_or_pdf (ext : string) :
  str_in ext audio_clean_exts = true ->
  str_in ext image_exts = false /\ String.eqb ext ".pdf" = false.
Proof.
  intros He. unfold str_in, audio_clean_exts in He. cbn [existsb] in He.
  repeat (apply orb_prop in He as [He | He];
          [apply String.eqb_eq in He; subst ext; split; reflexivity|]).
  discriminate.
Qed.

Lemma frames_bind_ret {A B} (ps : list string) (a : A) (k : A -> IO B) :
  frames ps (k a) -> frames ps (mret a ≫= k).
Proof. intros H w q Hq. exact (H w q Hq). Qed.

(** Clean-overwrite on an audio file never changes what the original path
    holds: its contents, tags included, and its modification time stay. *)
Lemma clean_overwrite_audio_keeps_original PIL PyPDF2 mutagen rt (fp : string) (w : World) :
  str_in (lower (Path.suffix (Path.of_string fp))) audio_clean_exts = true ->
  files (snd (perform_cleaning PIL PyPDF2 mutagen rt fp "clean_overwrite" w)) !! fp
  = files w !! fp.
Proof.
  intros Hext.
  destruct (audio_ext_not_image_or_pdf _ Hext) as [Himg Hpdf].
  set (op := fp +:+ ".cleaned" +:+ Path.suffix (Path.of_string fp)).
  apply (frames_perform_cleaning [op]); [right; reflexivity| |].
  - unfold clean_dispatch. rewrite Himg, Hpdf, Hext.
    cbn [String.eqb Ascii.eqb Bool.eqb].
    apply frames_bind_ret.
    apply frames_bind; [|intros r; apply frames_ret].
    apply frames_clean_audio_metadata. cbn [py_or]. apply list_elem_of_singleton. reflexivity.
  - rewrite list_elem_of_singleton. unfold op. intros Heq. symmetry in Heq.
    revert Heq. apply str_app_length_ne. discriminate.
Qed.

Lemma overwrite_at_empty (data : bytes) : overwrite_at 0 data [] = data.
Proof. unfold overwrite_at. rewrite take_0, drop_nil. cbn. apply app_nil_r. Qed.

(** When [clean_pdf_metadata] reports success, its output path holds the
    whole document the writer produced from the pages of the original. *)
Lemma clean_pdf_metadata_success (lib : PyPDF2Lib) (fp tp : string) (w : World) (f : File)
    (msg : string) (w' : World) :
  nonempty tp = true ->
  files w !! fp = Some f ->
  clean_pdf_metadata (Some lib) fp (Some tp) w = (Ok (true, msg), w') ->
  exists (reader : PdfDocument) (pages : list bytes) (doc : bytes) (t : Z),
    PdfReader lib (f_data f) = Ok reader /\
    pdf_pages reader = Ok pages /\
    PdfWriter_write lib pages = Ok doc /\
    files w' !! tp = Some (mkFile doc t).
Proof.
  intros Htp Hf. unfold clean_pdf_metadata, try_except, except_Exception.
  cbn [py_or]. rewrite Htp.
  rewrite run_bind, with_open_run, open_existing_run by reflexivity.
  destruct (planned w); [cbn; discriminate|].
  rewrite Hf. set (w1 := tick (SysOpen fp "rb") w).
  rewrite run_bind, f_readall_run. cbn [h_path h_pos].
  destruct (planned w1); [cbn; discriminate|].
  cbn [w1 files tick]. rewrite Hf, drop_0. fold w1.
  set (w2 := tick (SysRead fp) w1).
  rewrite run_bind. unfold se_lift at 1.
  destruct (PdfReader lib (f_data f)) as [reader|e] eqn:Hreader; [|cbn; discriminate].
  rewrite run_bind. unfold se_lift at 1.
  destruct (pdf_pages reader) as [pages|e] eqn:Hpages; [|cbn; discriminate].
  rewrite with_open_run, open_wb_run.
  destruct (planned w2); [cbn; discriminate|].
  set (w3 := with_files (<[tp := mkFile [] (now w2 + 1)]> (files w2)) (tick (SysOpen tp "wb") w2)).
  rewrite run_bind. unfold se_lift at 1.
  destruct (PdfWriter_write lib pages) as [doc|e] eqn:Hdoc; [|cbn; discriminate].
  assert (Hf3 : files w3 !! h_path (mkHandle tp 0) = Some (mkFile [] (now w2 + 1))).
  { cbn [h_path w3 files with_files]. apply lookup_insert_eq. }
  rewrite run_bind, (f_write_run (mkHandle tp 0) doc w3 _ Hf3). cbv zeta.
  destruct (planned w3); [cbn; discriminate|].
  cbn [h_path h_pos f_data mret se_mret se_ret fst snd].
  intros [= _ <-].
  exists reader, pages, doc, (now (tick (SysWrite tp doc) w3)).
  repeat split; [assumption..|].
  cbn [files note stored with_files]. rewrite lookup_insert_eq.
  cbn [f_data]. rewrite overwrite_at_empty. reflexivity.
Qed.

Lemma pdf_ext_not_image (ext : string) :
  String.eqb ext ".pdf" = true -> str_in ext image_exts = false.
Proof. intros He. apply String.eqb_eq in He. subst ext. reflexivity. Qed.

(** Clean-overwrite on a PDF is atomic on the original path: whatever the
    libraries answer and whichever calls fail, afterwards the path holds the
    untouched original or the whole cleaned document, never a part of it. *)
Lemma clean_overwrite_pdf_atomic PIL (lib : PyPDF2Lib) mutagen rt (fp : string) (w : World)
    (f : File) :
  String.eqb (lower (Path.suffix (Path.of_string fp))) ".pdf" = true ->
  files w !! fp = Some f ->
  let out := snd (perform_cleaning PIL (Some lib) mutagen rt fp "clean_overwrite" w) in
  files out !! fp = Some f \/
  exists (reader : PdfDocument) (pages : list bytes) (doc : bytes) (t : Z),
    PdfReader lib (f_data f) = Ok reader /\
    pdf_pages reader = Ok pages /\
    PdfWriter_write lib pages = Ok doc /\
    files out !! fp = Some (mkFile doc t).
Proof.
  intros Hext Hf out.
  set (tp := fp +:+ ".temp.pdf").
  assert (Htp : tp <> fp) by (apply str_app_length_ne; discriminate).
  assert (Hne : nonempty tp = true).
  { unfold nonempty, tp. destruct fp; reflexivity. }
  (* the state in which the dispatch starts, after the three header lines *)
  unfold out, perform_cleaning. cbn [String.eqb Ascii.eqb Bool.eqb str_in existsb orb].
  rewrite run_bind, run_print. rewrite run_bind, run_print. rewrite run_bind, run_print.
  match goal with |- context [(clean_dispatch _ _ _ _ _ _ ≫= _) ?v] => set (w0 := v) end.
  assert (Hf0 : files w0 !! fp = Some f) by exact Hf.
  rewrite run_bind. unfold clean_dispatch.
  rewrite (pdf_ext_not_image _ Hext), Hext. cbn [String.eqb Ascii.eqb Bool.eqb].
  fold tp. rewrite run_bind.
  pose proof (frames_clean_pdf_metadata [tp] (Some lib) fp (Some tp)) as Hframe.
  cbn [py_or] in Hframe. rewrite Hne in Hframe.
  specialize (Hframe ltac:(apply list_elem_of_singleton; reflexivity) w0 fp
                     ltac:(rewrite list_elem_of_singleton; congruence)).
  destruct (clean_pdf_metadata (Some lib) fp (Some tp) w0) as [[[succ msg]|e] w1] eqn:Hrun.
  2:{ left. cbn [snd] in *. rewrite Hframe. exact Hf0. }
  cbn [snd fst] in *. destruct succ.
  - destruct (clean_pdf_metadata_success lib fp tp w0 f msg w1 Hne Hf0 Hrun)
      as (reader & pages & doc & t & Hreader & Hpages & Hdoc & Hout).
    rewrite run_bind, os_replace_run.
    destruct (planned w1).
    + left. cbn [snd files tick]. rewrite Hframe. exact Hf0.
    + rewrite Hout. right. exists reader, pages, doc, t.
      repeat split; [assumption..|].
      cbn [mret se_mret se_ret]. rewrite run_bind, run_print, run_print.
      cbn [snd files with_files tick]. apply lookup_insert_eq.
  - left. cbn [mret se_mret se_ret]. rewrite run_bind, run_print, run_print.
    cbn [snd files]. rewrite Hframe. exact Hf0.
Qed.

Lemma planned_fault_free (w : World) : faults w = [] -> planned w = None.
Proof. intros H. unfold planned. rewrite H. reflexivity. Qed.

(** Clean-overwrite on an image opens the original itself for writing: when
    the encoder then refuses the image, the original is left empty, without
    any fault of the machine. *)
Lemma clean_overwrite_image_truncates (pil : Pillow) PyPDF2 mutagen rt (fp : string)
    (w : World) (f : File) (img : Image) (blank clean : Bitmap) (pixels : list pyval)
    (e : exn) :
  str_in (lower (Path.suffix (Path.of_string fp))) image_exts = true ->
  files w !! fp = Some f ->
  faults w = [] ->
  Image_open pil (f_data f) = Ok img ->
  Image_new pil (img_mode img) (img_size img) = Ok blank ->
  img_getdata img = Ok pixels ->
  Image_putdata pil blank pixels = Ok clean ->
  Image_registered pil fp = true ->
  Image_encode pil fp clean = Raise e ->
  content (snd (perform_cleaning (Some pil) PyPDF2 mutagen rt fp "clean_overwrite" w)) fp
  = Some [].
Proof.
  intros Hext Hf Hq Hopen Hnew Hdata Hput Hreg Henc.
  unfold content, perform_cleaning. cbn [String.eqb Ascii.eqb Bool.eqb str_in existsb orb].
  rewrite run_bind, run_print. rewrite run_bind, run_print. rewrite run_bind, run_print.
  match goal with |- context [(clean_dispatch _ _ _ _ _ _ ≫= _) ?v] => set (w0 := v) end.
  assert (Hf0 : files w0 !! fp = Some f) by exact Hf.
  assert (Hq0 : faults w0 = []) by exact Hq.
  rewrite run_bind. unfold clean_dispatch. rewrite Hext.
  cbn [String.eqb Ascii.eqb Bool.eqb].
  assert (Hclean : exists t,
    clean_image_metadata (Some pil) fp None w0
    = (Ok (false, "Error cleaning image metadata: " +:+ exn_str e),
       note (SysClose fp)
         (with_files (<[fp := mkFile [] t]> (files w0))
            (tick (SysOpen fp "wb")
               (after_calls w0 [SysOpen fp "rb"; SysRead fp; SysClose fp]))))).
  { unfold clean_image_metadata, try_except, except_Exception. cbn [py_or].
    rewrite run_bind, (read_file_ok fp w0 f Hf0 Hq0).
    set (w1 := after_calls w0 [SysOpen fp "rb"; SysRead fp; SysClose fp]).
    rewrite run_bind. unfold se_lift at 1. rewrite Hopen.
    rewrite run_bind. unfold se_lift at 1. rewrite Hnew.
    rewrite run_bind. unfold se_lift at 1. rewrite Hdata.
    rewrite run_bind. unfold se_lift at 1. rewrite Hput.
    rewrite run_bind. unfold Image_save. rewrite Hreg. cbn [negb].
    rewrite with_open_run, open_wb_run, (planned_fault_free w1 Hq0).
    rewrite run_bind. unfold se_lift at 1. rewrite Henc.
    eexists. reflexivity. }
  destruct Hclean as (t & Hclean).
  change ((mret None ≫= fun op => r ← clean_image_metadata (Some pil) fp op; mret (Some r)) w0)
    with ((r ← clean_image_metadata (Some pil) fp None; mret (Some r)) w0).
  rewrite run_bind, Hclean. cbn [mret se_mret se_ret].
  rewrite run_bind, run_print, run_print.
  cbn [snd files note with_files]. rewrite lookup_insert_eq. reflexivity.
Qed.

(** ** Where clean-copy writes *)

Lemma string_app_assoc (a b c : string) : (a +:+ b) +:+ c = a +:+ (b +:+ c).
Proof.
  induction a as [|x a IH]; [reflexivity|].
  change (String x (a +:+ b) +:+ c = String x (a +:+ b +:+ c)).
  change (String x ((a +:+ b) +:+ c) = String x (a +:+ b +:+ c)).
  rewrite IH. reflexivity.
Qed.

Lemma string_app_nil_r (a : string) : a +:+ "" = a.
Proof.
  induction a as [|x a IH]; [reflexivity|].
  change (String x (a +:+ "") = String x a). rewrite IH. reflexivity.
Qed.

Lemma split_on_no_slash (t : string) : no_slash t = true -> split_on "/" t = [t].
Proof.
  induction t as [|c t IH]; [reflexivity|].
  unfold no_slash. cbn [all_chars]. intros H. apply andb_prop in H as [Hc Ht].
  cbn [split_on]. destruct (Ascii.eqb c "/"); [discriminate|].
  rewrite (IH Ht). reflexivity.
Qed.

Lemma split_on_snoc (t : string) :
  no_slash t = true ->
  forall s : string,
    exists (init : list string) (l : string),
      split_on "/" s = init ++ [l] /\ split_on "/" (s +:+ t) = init ++ [l +:+ t].
Proof.
  intros Ht. induction s as [|c s (init & l & Hs & Hst)].
  - exists [], "". split; [reflexivity|]. apply split_on_no_slash, Ht.
  - change (String c s +:+ t) with (String c (s +:+ t)). cbn [split_on].
    destruct (Ascii.eqb c "/").
    + exists ("" :: init), l. rewrite Hs, Hst. split; reflexivity.
    + rewrite Hs, Hst. destruct init as [|x init].
      * exists [], (String c l). split; reflexivity.
      * exists (String c x :: init), l. split; reflexivity.
Qed.

Lemma basename_app (s t : string) :
  no_slash t = true -> basename (s +:+ t) = basename s +:+ t.
Proof.
  intros Ht. destruct (split_on_snoc t Ht s) as (init & l & Hs & Hst).
  unfold basename. rewrite Hs, Hst, !List.last_last. reflexivity.
Qed.

Lemma split_on_nonempty (sep : ascii) (s : string) : split_on sep s <> [].
Proof.
  destruct s as [|c s]; cbn [split_on]; [discriminate|].
  destruct (Ascii.eqb c sep); [discriminate|].
  destruct (split_on sep s); discriminate.
Qed.

Lemma split_on_slash_end (s : string) :
  split_on "/" (s +:+ "/") = split_on "/" s ++ [""].
Proof.
  induction s as [|c s IH]; [reflexivity|].
  change (String c s +:+ "/") with (String c (s +:+ "/")). cbn [split_on].
  rewrite IH. destruct (Ascii.eqb c "/"); [reflexivity|].
  destruct (split_on "/" s) as [|w ws] eqn:E; [|reflexivity].
  exfalso. exact (split_on_nonempty _ _ E).
Qed.

Lemma basename_slash (s : string) : basename (s +:+ "/") = "".
Proof. unfold basename. rewrite split_on_slash_end. apply List.last_last. Qed.

Lemma last_cons_nonempty {A} (a : A) (l : list A) (d : A) :
  l <> [] -> List.last (a :: l) d = List.last l d.
Proof. destruct l; [congruence|reflexivity]. Qed.

Lemma basename_splitroot (fp : string) : basename (snd (Path.splitroot fp)) = basename fp.
Proof.
  assert (Hcons : forall r, basename (String "/" r) = basename r).
  { intros r. unfold basename. cbn [split_on Ascii.eqb Bool.eqb].
    apply last_cons_nonempty, split_on_nonempty. }
  destruct fp as [|c1 r1]; [reflexivity|]. cbn [Path.splitroot].
  destruct (Ascii.eqb_spec c1 "/") as [->|]; [|reflexivity].
  rewrite Hcons. destruct r1 as [|c2 r2]; [reflexivity|].
  destruct (Ascii.eqb_spec c2 "/") as [->|]; [|reflexivity].
  destruct r2 as [|c3 r3]; [cbn [snd]; rewrite Hcons; reflexivity|].
  destruct (Ascii.eqb c3 "/"); [reflexivity|]. cbn [snd]. rewrite Hcons. reflexivity.
Qed.

Lemma splitroot_root (fp : string) :
  fst (Path.splitroot fp) = "" \/ fst (Path.splitroot fp) = "/" \/ fst (Path.splitroot fp) = "//".
Proof.
  destruct fp as [|c1 [|c2 [|c3 r3]]]; cbn [Path.splitroot];
    repeat match goal with |- context [Ascii.eqb ?c "/"] => destruct (Ascii.eqb c "/") end;
    cbn [fst]; auto.
Qed.

Lemma last_filter_keeps {A} (P : A -> Prop) `{forall x, Decision (P x)} (l : list A) (d : A) :
  l <> [] -> P (List.last l d) -> List.last (filter P l) d = List.last l d.
Proof.
  intros Hl. destruct (exists_last Hl) as (init & x & ->).
  rewrite List.last_last. intros Hx.
  rewrite filter_app, filter_cons_True by exact Hx.
  rewrite filter_nil. apply List.last_last.
Qed.

(** The name of a parsed path is the text after the last slash, when that
    text is a component. *)
Lemma name_of_basename (fp : string) :
  Path.keep_part (basename fp) = true ->
  Path.name (Path.of_string fp) = basename fp.
Proof.
  intros Hkeep. unfold Path.of_string, Path.name.
  pose proof (basename_splitroot fp) as Hb.
  destruct (Path.splitroot fp) as [rt rel]. cbn [snd Path.tail] in *.
  rewrite <- Hb in *. unfold basename in *.
  apply (last_filter_keeps (fun x => Path.keep_part x = true)).
  - apply split_on_nonempty.
  - exact Hkeep.
Qed.

Lemma split_on_parts_no_slash (s : string) :
  Forall (fun x => no_slash x = true) (split_on "/" s).
Proof.
  induction s as [|c s IH]; [repeat constructor|].
  cbn [split_on]. destruct (Ascii.eqb c "/") eqn:Ec.
  - constructor; [reflexivity|exact IH].
  - destruct (split_on "/" s) as [|w ws]; [repeat constructor; cbn; rewrite Ec; reflexivity|].
    inversion IH as [|? ? Hw Hws]; subst. constructor; [|exact Hws].
    unfold no_slash in *. cbn [all_chars]. rewrite Ec, Hw. reflexivity.
Qed.

Lemma name_no_slash (fp : string) : no_slash (Path.name (Path.of_string fp)) = true.
Proof.
  unfold Path.of_string, Path.name. destruct (Path.splitroot fp) as [rt rel]. cbn [Path.tail].
  pose proof (split_on_parts_no_slash rel) as Hall.
  assert (Hf : Forall (fun x => no_slash x = true)
                 (filter (fun x => Path.keep_part x = true) (split_on "/" rel))).
  { apply Forall_forall. intros x Hx. apply list_elem_of_filter in Hx as [_ Hx].
    rewrite Forall_forall in Hall. apply Hall, Hx. }
  induction Hf as [|x l Hx Hl IHl]; [reflexivity|].
  destruct l; [exact Hx|exact IHl].
Qed.

Lemma str_take_length (k : nat) (s : string) :
  String.length (str_take k s) = Nat.min k (String.length s).
Proof.
  revert s. induction k as [|k IH]; intros [|c s]; cbn; try reflexivity.
  rewrite IH. reflexivity.
Qed.

Lemma str_drop_length (k : nat) (s : string) :
  String.length (str_drop k s) = (String.length s - k)%nat.
Proof.
  revert s. induction k as [|k IH]; intros [|c s]; cbn; try reflexivity; try lia.
  apply IH.
Qed.

Lemma str_take_no_slash (k : nat) (s : string) :
  no_slash s = true -> no_slash (str_take k s) = true.
Proof.
  unfold no_slash. revert s. induction k as [|k IH]; intros [|c s]; cbn; try reflexivity.
  intros H. apply andb_prop in H as [-> Hs]. rewrite (IH s Hs). reflexivity.
Qed.

Lemma str_drop_no_slash (k : nat) (s : string) :
  no_slash s = true -> no_slash (str_drop k s) = true.
Proof.
  unfold no_slash. revert s. induction k as [|k IH]; intros [|c s]; cbn; try reflexivity; auto.
  intros H. apply andb_prop in H as [_ Hs]. exact (IH s Hs).
Qed.

Lemma ascii_lower_slash (c : ascii) : Ascii.eqb (ascii_lower c) "/" = Ascii.eqb c "/".
Proof. destruct c as [[] [] [] [] [] [] [] []]; reflexivity. Qed.

Lemma lower_no_slash (s : string) : no_slash (lower s) = no_slash s.
Proof.
  unfold no_slash. induction s as [|c s IH]; [reflexivity|].
  cbn [lower all_chars]. rewrite ascii_lower_slash, IH. reflexivity.
Qed.

Lemma lower_length (s : string) : String.length (lower s) = String.length s.
Proof. induction s as [|c s IH]; [reflexivity|]. cbn. rewrite IH. reflexivity. Qed.

Lemma suffix_no_slash (fp : string) : no_slash (Path.suffix (Path.of_string fp)) = true.
Proof.
  unfold Path.suffix. destruct (rfind_dot _) as [i|]; [|reflexivity].
  match goal with |- context [if ?b then _ else _] => destruct b end; [|reflexivity].
  apply str_drop_no_slash, name_no_slash.
Qed.

Lemma suffix_length (P : Path.t) :
  (String.length (Path.suffix P) <= String.length (Path.name P))%nat.
Proof.
  unfold Path.suffix. destruct (rfind_dot _) as [i|]; [|cbn; lia].
  match goal with |- context [if ?b then _ else _] => destruct b end; [|cbn; lia].
  rewrite str_drop_length. lia.
Qed.

Lemma basename_ends_dir (Y : string) : ends_dir Y -> basename Y = "".
Proof. intros [-> | (Y0 & ->)]; [reflexivity|apply basename_slash]. Qed.

Lemma join_snoc (init : list string) (x : string) :
  exists Y : string, join "/" (init ++ [x]) = Y +:+ x /\ ends_dir Y.
Proof.
  induction init as [|a init (Y & HY & Hdir)].
  - exists "". split; [reflexivity|left; reflexivity].
  - exists (a +:+ "/" +:+ Y). split.
    + change ((a :: init) ++ [x]) with (a :: (init ++ [x])). cbn [join].
      destruct (init ++ [x]) as [|b l] eqn:E; [destruct init; discriminate|].
      rewrite HY, !string_app_assoc. reflexivity.
    + right. destruct Hdir as [-> | (Y0 & ->)].
      * exists a. rewrite string_app_nil_r. reflexivity.
      * exists (a +:+ "/" +:+ Y0). rewrite !string_app_assoc. reflexivity.
Qed.

Lemma rooted_snoc (rt : string) (init : list string) (x : string) :
  rt = "" \/ rt = "/" \/ rt = "//" ->
  exists Y : string, rt +:+ join "/" (init ++ [x]) = Y +:+ x /\ ends_dir Y.
Proof.
  intros Hrt. destruct (join_snoc init x) as (Y & -> & Hdir).
  exists (rt +:+ Y). split; [rewrite string_app_assoc; reflexivity|].
  destruct Hdir as [-> | (Y0 & ->)].
  - rewrite string_app_nil_r. destruct Hrt as [-> | [-> | ->]].
    + left. reflexivity.
    + right. exists "". reflexivity.
    + right. exists "/". reflexivity.
  - right. exists (rt +:+ Y0). rewrite string_app_assoc. reflexivity.
Qed.

Lemma no_slash_app (a b : string) : no_slash (a +:+ b) = no_slash a && no_slash b.
Proof. apply all_chars_app. Qed.

(** The name of [str(p) + rest] is at least as long as the last component of
    [p] followed by [rest]. *)
Lemma basename_to_string_app (rt : string) (init : list string) (x rest : string) :
  rt = "" \/ rt = "/" \/ rt = "//" ->
  no_slash x = true -> no_slash rest = true ->
  (String.length x + String.length rest
   <= String.length (basename (Path.to_string (Path.mk rt (init ++ [x])) +:+ rest)))%nat.
Proof.
  intros Hrt Hx Hrest. unfold Path.to_string. cbn [Path.root Path.tail].
  destruct (rooted_snoc rt init x Hrt) as (Y & HY & Hdir). rewrite HY.
  destruct (String.eqb_spec (Y +:+ x) "") as [Hnil|Hne].
  - assert (x = "").
    { apply (f_equal String.length) in Hnil. rewrite string_length_app in Hnil.
      destruct x; [reflexivity|cbn in Hnil; lia]. }
    subst x. rewrite basename_app by exact Hrest. rewrite string_length_app. cbn. lia.
  - rewrite string_app_assoc, basename_app.
    + rewrite (basename_ends_dir Y Hdir).
      change ("" +:+ x +:+ rest) with (x +:+ rest).
      rewrite string_length_app. lia.
    + rewrite no_slash_app, Hx, Hrest. reflexivity.
Qed.

Lemma keep_part_long (b : string) : (2 <= String.length b)%nat -> Path.keep_part b = true.
Proof. destruct b as [|c [|d b]]; cbn; try lia. intros _. destruct (Ascii.eqb c "."); reflexivity. Qed.

(** The derived clean-copy path is never the path it is derived from. *)
Lemma cleaned_path_differs (fp p : string) :
  cleaned_path fp (lower (Path.suffix (Path.of_string fp))) = Ok p -> p <> fp.
Proof.
  unfold cleaned_path, Path.with_suffix_empty.
  set (P := Path.of_string fp). set (n := Path.name P). set (sfx := Path.suffix P).
  destruct (String.eqb n ""); [discriminate|].
  set (n' := str_take (String.length n - String.length sfx) n).
  intros [= <-] Heq.
  assert (Hrt : Path.root P = "" \/ Path.root P = "/" \/ Path.root P = "//").
  { unfold P, Path.of_string. pose proof (splitroot_root fp) as H.
    destruct (Path.splitroot fp). exact H. }
  assert (Hn : no_slash n = true) by apply name_no_slash.
  assert (Hrest : no_slash (".cleaned" +:+ lower sfx) = true).
  { rewrite no_slash_app, lower_no_slash. unfold sfx, P. rewrite suffix_no_slash. reflexivity. }
  pose proof (basename_to_string_app (Path.root P) (removelast (Path.tail P)) n'
                (".cleaned" +:+ lower sfx) Hrt (str_take_no_slash _ _ Hn) Hrest) as Hlen.
  rewrite Heq in Hlen.
  rewrite string_length_app, lower_length in Hlen. cbn [String.length] in Hlen.
  assert (Hname : Path.name (Path.of_string fp) = basename fp).
  { apply name_of_basename, keep_part_long. lia. }
  fold P n in Hname. rewrite <- Hname in Hlen.
  unfold n' in Hlen. rewrite str_take_length in Hlen.
  pose proof (suffix_length P) as Hsfx. fold n sfx in Hsfx. lia.
Qed.

Lemma cleaned_path_defined (fp : string) :
  Path.suffix (Path.of_string fp) <> "" ->
  exists p : string, cleaned_path fp (lower (Path.suffix (Path.of_string fp))) = Ok p.
Proof.
  intros Hsfx. unfold cleaned_path, Path.with_suffix_empty.
  destruct (String.eqb_spec (Path.name (Path.of_string fp)) "") as [Hn|Hn].
  - exfalso. apply Hsfx. unfold Path.suffix. rewrite Hn. reflexivity.
  - eexists. reflexivity.
Qed.

Lemma str_in_nonempty (ext : string) (l : list string) :
  str_in ext l = true -> str_in "" l = false -> ext <> "".
Proof. intros H1 H2 ->. congruence. Qed.

Lemma lower_nonempty (s : string) : lower s <> "" -> s <> "".
Proof. intros H ->. apply H. reflexivity. Qed.

Lemma frames_ext {A} (ps : list string) (c c' : IO A) :
  (forall w, c w = c' w) -> frames ps c' -> frames ps c.
Proof. intros Heq H w q Hq. rewrite Heq. exact (H w q Hq). Qed.

(** Clean-copy on an image or an audio file can change one path only, the
    stem followed by [.cleaned] and the lower-cased extension, and that path is
    not the original. *)
Lemma clean_copy_image_audio_frame PIL PyPDF2 mutagen rt (fp : string) (w : World) :
  let ext := lower (Path.suffix (Path.of_string fp)) in
  str_in ext image_exts = true \/ str_in ext audio_clean_exts = true ->
  exists p : string,
    cleaned_path fp ext = Ok p /\ p <> fp /\
    forall q : string,
      q <> p ->
      files (snd (perform_cleaning PIL PyPDF2 mutagen rt fp "clean_copy" w)) !! q
      = files w !! q.
Proof.
  intros ext Hext.
  assert (Hne : Path.suffix (Path.of_string fp) <> "").
  { apply lower_nonempty. fold ext.
    destruct Hext as [H|H]; apply (str_in_nonempty _ _ H); reflexivity. }
  destruct (cleaned_path_defined fp Hne) as (p & Hp). fold ext in Hp.
  exists p. split; [exact Hp|]. split; [apply cleaned_path_differs; exact Hp|].
  intros q Hq.
  apply (frames_perform_cleaning [p]); [left; reflexivity| |rewrite list_elem_of_singleton; exact Hq].
  fold ext. unfold clean_dispatch. cbn [String.eqb Ascii.eqb Bool.eqb].
  assert (Hnonempty : nonempty p = true).
  { unfold cleaned_path in Hp. destruct (Path.with_suffix_empty _) as [a|]; [|discriminate].
    injection Hp as <-. unfold nonempty.
    destruct (String.eqb_spec (Path.to_string a +:+ ".cleaned" +:+ ext) "") as [e|]; [|reflexivity].
    apply (f_equal String.length) in e. rewrite !string_length_app in e.
    cbn [String.length] in e. lia. }
  assert (Hin : p ∈ [p]) by (apply list_elem_of_singleton; reflexivity).
  destruct (str_in ext image_exts) eqn:Himg.
  - apply (frames_ext _ _ (r ← clean_image_metadata PIL fp (Some p); mret (Some r))).
    { intros w0. rewrite Hp. reflexivity. }
    apply frames_bind; [|intros r; apply frames_ret].
    apply frames_clean_image_metadata. cbn [py_or]. rewrite Hnonempty. exact Hin.
  - destruct Hext as [Hext|Hext]; [discriminate|].
    destruct (audio_ext_not_image_or_pdf _ Hext) as [_ Hpdf]. rewrite Hpdf, Hext.
    apply (frames_ext _ _ (r ← clean_audio_metadata mutagen fp (Some p); mret (Some r))).
    { intros w0. rewrite Hp. reflexivity. }
    apply frames_bind; [|intros r; apply frames_ret].
    apply frames_clean_audio_metadata. cbn [py_or]. rewrite Hnonempty. exact Hin.
Qed.

(** Clean-copy on a PDF can change one path only, the original path followed
    by [.cleaned.pdf]. *)
Lemma clean_copy_pdf_frame PIL PyPDF2 mutagen rt (fp : string) (w : World) :
  String.eqb (lower (Path.suffix (Path.of_string fp))) ".pdf" = true ->
  fp +:+ ".cleaned.pdf" <> fp /\
  forall q : string,
    q <> fp +:+ ".cleaned.pdf" ->
    files (snd (perform_cleaning PIL PyPDF2 mutagen rt fp "clean_copy" w)) !! q
    = files w !! q.
Proof.
  intros Hext. split; [apply str_app_length_ne; discriminate|].
  intros q Hq.
  apply (frames_perform_cleaning [fp +:+ ".cleaned.pdf"]);
    [left; reflexivity| |rewrite list_elem_of_singleton; exact Hq].
  unfold clean_dispatch. rewrite (pdf_ext_not_image _ Hext), Hext.
  cbn [String.eqb Ascii.eqb Bool.eqb].
  apply frames_bind; [|intros r; apply frames_ret].
  apply frames_clean_pdf_metadata. cbn [py_or]. apply list_elem_of_singleton. reflexivity.
Qed.

(** Clean-copy never changes what the original path holds, for any supported
    file, any behaviour of the libraries and any plan of faults. *)
Lemma clean_copy_keeps_original PIL PyPDF2 mutagen rt (fp : string) (w : World) :
  let ext := lower (Path.suffix (Path.of_string fp)) in
  str_in ext image_exts = true \/ String.eqb ext ".pdf" = true \/
  str_in ext audio_clean_exts = true ->
  files (snd (perform_cleaning PIL PyPDF2 mutagen rt fp "clean_copy" w)) !! fp = files w !! fp.
Proof.
  intros ext [Himg | [Hpdf | Haud]].
  - destruct (clean_copy_image_audio_frame PIL PyPDF2 mutagen rt fp w (or_introl Himg))
      as (p & _ & Hp & Hframe). apply Hframe. congruence.
  - destruct (clean_copy_pdf_frame PIL PyPDF2 mutagen rt fp w Hpdf) as [Hne Hframe].
    apply Hframe. congruence.
  - destruct (clean_copy_image_audio_frame PIL PyPDF2 mutagen rt fp w (or_intror Haud))
      as (p & _ & Hp & Hframe). apply Hframe. congruence.
Qed.
